(** * flipper-uxn: the host layer of the Uxn emulator (uxn.c)

    A shallow embedding of [src/uxn.c]: the device dispatch ([emu_dei],
    [emu_deo]), the two event callbacks ([input_callback],
    [timer_callback]), the program load and the render loop of [uxn_app].

    The VM interpreter ([uxn_eval]) and the screen device ([screen_dei],
    [screen_deo], [screen_resize]) live in other translation units; they are
    section variables here, so every statement holds for any interpreter and
    any screen device.  A resumption is taken to return: the callbacks hold
    the mutex until it does.  Calls that leave this file (interpreter,
    canvas) are recorded in a trace. *)

From stdpp Require Import base decidable option numbers list list_numbers.

Local Open Scope Z_scope.

(** ** Machine integers

    [Uint8]/[uint8_t] and [uint16_t] values are integers with the wrap-around
    of a store written out. *)

Definition uint8 (z : Z) : Z := z mod 256.
Definition uint16 (z : Z) : Z := z mod 65536.

Definition is_byte (z : Z) : Prop := 0 ≤ z < 256.

(** [a[i]] on a C array held as a list.  Every index in [uxn.c] is in range
    (a [Uint8] into 256 registers, [y * 128 + x] into a 128x64 plane); the
    default is never reached on well-formed states. *)
Definition rd (a : list Z) (i : Z) : Z := default 0 (a !! Z.to_nat i).

(** [a[i] = v]. *)
Definition wr (a : list Z) (i : Z) (v : Z) : list Z := <[Z.to_nat i := v]> a.

(** ** Input events (the firmware's input.h)

    [button_bit] switches on six enumerators and has a [default] branch; the
    enumeration's own end marker is the one remaining value.  Event types
    other than press, release and long fall through every test of
    [input_callback]. *)

Inductive InputKey :=
  | InputKeyUp | InputKeyDown | InputKeyRight | InputKeyLeft
  | InputKeyOk | InputKeyBack | InputKeyMAX.

Inductive InputType :=
  | InputTypePress | InputTypeRelease | InputTypeShort
  | InputTypeLong | InputTypeRepeat | InputTypeMAX.

Record InputEvent := mkInputEvent { key : InputKey; type : InputType }.

#[global] Instance InputKey_eq_dec : EqDecision InputKey.
Proof. solve_decision. Defined.
#[global] Instance InputType_eq_dec : EqDecision InputType.
Proof. solve_decision. Defined.

(** ** Session state *)

(** [Uxn]: the VM's memory and its 256 device registers. *)
Record Uxn := mkUxn { ram : list Z; dev : list Z }.

(** [uxn_screen]: the screen device's two colour planes. *)
Record UxnScreen := mkUxnScreen { fg : list Z; bg : list Z }.

(** [UxnState]; [mutex] is [true] while the mutex is held. *)
Record UxnState := mkUxnState {
  mutex : bool;
  uxn : Uxn;
  running : bool;
  redraw : bool
}.

(** Calls that leave uxn.c.  An interpreter call records the VM state it is
    handed and the address it is asked to resume at. *)
Inductive Call :=
  | CallEval (u : Uxn) (pc : Z)
  | CanvasClear
  | CanvasDrawDot (x y : Z)
  | CanvasCommit
  | DelayTick (ticks : Z).

Record World := mkWorld {
  state : UxnState;
  uxn_screen : UxnScreen;
  trace : list Call
}.

(** ** A state monad with blocking

    [None] is a caller blocked on the mutex ([FuriWaitForever]): it makes no
    step. *)

Definition M (A : Type) : Type := World → option (A * World).

Definition ret {A} (a : A) : M A := λ w, Some (a, w).

Definition bind {A B} (m : M A) (k : A → M B) : M B :=
  λ w, match m w with
       | Some (a, w') => k a w'
       | None => None
       end.

Notation "x <- m ;; k" := (bind m (λ x, k))
  (at level 100, m at next level, right associativity).
Notation "m ;; k" := (bind m (λ _, k))
  (at level 100, right associativity).

Definition gets {A} (f : World → A) : M A := λ w, Some (f w, w).
Definition modify (f : World → World) : M unit := λ w, Some (tt, f w).
Definition when (b : bool) (m : M unit) : M unit := if b then m else ret tt.

Definition set_mutex (b : bool) (w : World) : World :=
  mkWorld (mkUxnState b (uxn (state w)) (running (state w)) (redraw (state w)))
          (uxn_screen w) (trace w).
Definition set_uxn (u : Uxn) (w : World) : World :=
  mkWorld (mkUxnState (mutex (state w)) u (running (state w))
                      (redraw (state w)))
          (uxn_screen w) (trace w).
Definition set_running (b : bool) (w : World) : World :=
  mkWorld (mkUxnState (mutex (state w)) (uxn (state w)) b (redraw (state w)))
          (uxn_screen w) (trace w).
Definition set_redraw (b : bool) (w : World) : World :=
  mkWorld (mkUxnState (mutex (state w)) (uxn (state w)) (running (state w)) b)
          (uxn_screen w) (trace w).
Definition set_screen (s : UxnScreen) (w : World) : World :=
  mkWorld (state w) s (trace w).
Definition log (cs : list Call) (w : World) : World :=
  mkWorld (state w) (uxn_screen w) (trace w ++ cs).

Definition furi_mutex_acquire : M unit :=
  λ w, if mutex (state w) then None else Some (tt, set_mutex true w).
Definition furi_mutex_release : M unit := modify (set_mutex false).

(** ** button_bit *)

Definition button_bit (key : InputKey) : Z :=
  match key with
  | InputKeyOk => 0x01
  | InputKeyBack => 0x02
  | InputKeyUp => 0x10
  | InputKeyDown => 0x20
  | InputKeyLeft => 0x40
  | InputKeyRight => 0x80
  | _ => 0
  end.

(** The six keys [button_bit] has a case for. *)
Definition recognized (k : InputKey) : Prop :=
  k ∈ [InputKeyOk; InputKeyBack; InputKeyUp; InputKeyDown;
       InputKeyLeft; InputKeyRight].

(** ** Vectors

    [dev[a] << 8 | dev[a + 1]], stored in a [uint16_t]. *)
Definition vector_at (d : list Z) (a : Z) : Z :=
  uint16 (Z.lor (Z.shiftl (rd d a) 8) (rd d (a + 1))).

Definition controller_vector (u : Uxn) : Z := vector_at (dev u) 0x80.
Definition screen_vector (u : Uxn) : Z := vector_at (dev u) 0x20.

(** ** The compositor of the render loop *)

(** [bool on = fg & 1; if (fg == 0) on = bg & 1;] *)
Definition pixel_on (fg bg : Z) : bool :=
  let on := bool_decide (Z.land fg 1 ≠ 0) in
  if decide (fg = 0) then bool_decide (Z.land bg 1 ≠ 0) else on.

(** The inner loop: [for (x = 0; x < 128; x++)]. *)
Definition draw_row (s : UxnScreen) (y : Z) : list Call :=
  x ← seqZ 0 128;
  if pixel_on (rd (fg s) (y * 128 + x)) (rd (bg s) (y * 128 + x))
  then [CanvasDrawDot x y] else [].

(** The outer loop: [for (y = 0; y < 64; y++)]. *)
Definition draw_frame (s : UxnScreen) : list Call :=
  y ← seqZ 0 64; draw_row s y.

(** ** storage_file_read

    Reads at most [len] bytes of the file into the buffer at offset [off];
    the rest of the buffer is not written. *)
Definition storage_file_read (file buf : list Z) (off len : Z) : list Z :=
  list_inserts (Z.to_nat off) (take (Z.to_nat len) file) buf.

(** ** malloc

    The allocator of the firmware this application is built for: a block of
    [size] bytes, handed out zero-filled. *)
Definition malloc (size : Z) : list Z := replicate (Z.to_nat size) 0.

Section Emulator.

(** The interpreter: resumes the VM at an address; it may rewrite memory,
    registers and, through the screen device, the colour planes. *)
Variable uxn_eval : Uxn → UxnScreen → Z → Uxn * UxnScreen.

(** The screen device.  [screen_deo] receives the memory, the register
    block at its base offset and the port. *)
Variable screen_dei : Uxn → UxnScreen → Z → Z.
Variable screen_deo : Uxn → UxnScreen → Z → Z → Uxn * UxnScreen.
Variable screen_resize : Z → Z → UxnScreen.

(** *** Device dispatch *)

Definition emu_dei (u : Uxn) (s : UxnScreen) (addr : Z) : Z :=
  let port := Z.land addr 0x0f in
  let device := Z.shiftr addr 4 in
  if decide (device = 0x2) then screen_dei u s addr
  else rd (dev u) addr.

Definition emu_deo (u : Uxn) (s : UxnScreen) (addr value : Z)
  : Uxn * UxnScreen :=
  let u := mkUxn (ram u) (wr (dev u) addr value) in
  let port := Z.land addr 0x0f in
  let device := Z.shiftr addr 4 in
  if decide (device = 0x2) then screen_deo u s 0x20 port
  else (u, s).

(** Required for the stock screen device. *)
Definition emu_resize (width height : Z) : Z := 0.

(** *** Callbacks *)

(** [uxn_eval(&state->uxn, pc)] *)
Definition call_uxn_eval (pc : Z) : M unit :=
  modify (λ w,
    let r := uxn_eval (uxn (state w)) (uxn_screen w) pc in
    log [CallEval (uxn (state w)) pc] (set_screen r.2 (set_uxn r.1 w))).

(** [state->uxn.dev[a] = f(state->uxn.dev[a])], truncated to a byte. *)
Definition update_dev (a : Z) (f : Z → Z) : M unit :=
  modify (λ w,
    let u := uxn (state w) in
    set_uxn (mkUxn (ram u) (wr (dev u) a (uint8 (f (rd (dev u) a))))) w).

Definition input_callback (event : InputEvent) : M unit :=
  furi_mutex_acquire ;;
  controller_vector <- gets (λ w, controller_vector (uxn (state w))) ;;
  (if decide (type event = InputTypePress) then
     update_dev 0x82 (λ m, Z.lor m (button_bit (key event))) ;;
     call_uxn_eval controller_vector
   else if decide (type event = InputTypeRelease) then
     update_dev 0x82 (λ m, Z.land m (Z.lnot (button_bit (key event)))) ;;
     call_uxn_eval controller_vector
   else ret tt) ;;
  when (bool_decide (key event = InputKeyBack)
        && bool_decide (type event = InputTypeLong))
    (modify (set_running false)) ;;
  furi_mutex_release.

Definition timer_callback : M unit :=
  furi_mutex_acquire ;;
  screen_vector <- gets (λ w, screen_vector (uxn (state w))) ;;
  call_uxn_eval screen_vector ;;
  modify (set_redraw true) ;;
  furi_mutex_release.

(** *** uxn_app *)

(** The state before the file browser returns: [memset(&state.uxn, 0, ..)]
    leaves both pointers null, the flags are false. *)
Definition initial_world : World :=
  mkWorld (mkUxnState false (mkUxn [] []) false false) (mkUxnScreen [] []) [].

(** The [if (success)] block.  [heap] is the block [malloc(0x10000)]
    returns, [file] the bytes of the selected file.  [dev] is the array
    declared in this block; the callbacks use it for the whole session. *)
Definition load (heap file : list Z) : M unit :=
  let ram := heap in
  let dev := replicate 0x100%nat 0 in
  modify (set_uxn (mkUxn ram dev)) ;;
  modify (set_screen (screen_resize 128 64)) ;;
  modify (set_uxn
    (mkUxn (storage_file_read file ram 0x100 (0x10000 - 0x100)) dev)) ;;
  call_uxn_eval 0x100 ;;
  modify (set_running true).

(** One pass of [while (state.running)]; nothing once the loop is left. *)
Definition render_loop_pass : M unit :=
  running <- gets (λ w, running (state w)) ;;
  when running (
    furi_mutex_acquire ;;
    redraw <- gets (λ w, redraw (state w)) ;;
    when redraw (
      modify (log [CanvasClear]) ;;
      modify (λ w, log (draw_frame (uxn_screen w)) w) ;;
      modify (log [CanvasCommit]) ;;
      modify (set_redraw false)) ;;
    furi_mutex_release ;;
    modify (log [DelayTick 2])).

(** [uxn_app] up to the loop: [selected] is the file the browser returned,
    if any. *)
Definition uxn_app_start (heap : list Z) (selected : option (list Z))
  : M unit :=
  match selected with
  | Some file => load heap file
  | None => ret tt
  end.

End Emulator.

(** ** Schedules and observations *)

(** The three actors that take the mutex. *)
Inductive Actor :=
  | Tick
  | Input (event : InputEvent)
  | Pass.

Definition step (uxn_eval : Uxn → UxnScreen → Z → Uxn * UxnScreen)
    (a : Actor) : M unit :=
  match a with
  | Tick => timer_callback uxn_eval
  | Input event => input_callback uxn_eval event
  | Pass => render_loop_pass
  end.

(** The actors run one after the other, in the order the mutex serialises
    them. *)
Fixpoint run (uxn_eval : Uxn → UxnScreen → Z → Uxn * UxnScreen)
    (sched : list Actor) : M unit :=
  match sched with
  | [] => ret tt
  | a :: sched => step uxn_eval a ;; run uxn_eval sched
  end.

(** The Button Mask register. *)
Definition mask (w : World) : Z := rd (dev (uxn (state w))) 0x82.

(** The addresses the interpreter was resumed at, oldest first. *)
Definition eval_calls (t : list Call) : list Z :=
  omap (λ c, match c with CallEval _ pc => Some pc | _ => None end) t.

(** The number of frames committed to the canvas. *)
Definition is_commit (c : Call) : bool :=
  match c with CanvasCommit => true | _ => false end.

Definition commits (t : list Call) : nat :=
  length (filter (λ c, is_commit c = true) t).

(** ** Counting over schedules and event lists *)

(** The event that ends the session. *)
Definition is_stop (e : InputEvent) : bool :=
  bool_decide (key e = InputKeyBack) && bool_decide (type e = InputTypeLong).

(** Whether an actor is a long press of the back key. *)
Definition stops (a : Actor) : bool :=
  match a with
  | Input e => is_stop e
  | _ => false
  end.

(** Whether an actor reaches a call of [uxn_eval]: a tick, a press or a
    release. *)
Definition resumes (a : Actor) : bool :=
  match a with
  | Tick => true
  | Input e =>
      bool_decide (type e = InputTypePress)
      || bool_decide (type e = InputTypeRelease)
  | Pass => false
  end.

Definition is_tick (a : Actor) : bool :=
  match a with Tick => true | _ => false end.

Definition count_actors (p : Actor → bool) (sched : list Actor) : nat :=
  length (filter (λ a, p a = true) sched).

(** Whether key [k] is down after a list of events, [down] telling whether
    it was before: its last press or release decides. *)
Definition key_down (k : InputKey) (events : list InputEvent) (down : bool)
  : bool :=
  foldl (λ d e,
    if decide (key e = k) then
      if decide (type e = InputTypePress) then true
      else if decide (type e = InputTypeRelease) then false
      else d
    else d) down events.

(** The period handed to [furi_timer_start]:
    [furi_kernel_get_tick_frequency() / 60], in ticks. *)
Definition timer_period (tick_frequency : Z) : Z := tick_frequency `div` 60.

(** ** Sample collaborators and states

    Concrete interpreters, screen devices and sessions on which the
    statements below are run. *)

(** A screen device that ignores every port. *)
Definition idle_screen_dei (u : Uxn) (s : UxnScreen) (addr : Z) : Z := 0.
Definition idle_screen_deo (u : Uxn) (s : UxnScreen) (d port : Z)
  : Uxn * UxnScreen := (u, s).

(** A screen device whose planes are blank after a resize. *)
Definition blank_screen_resize (width height : Z) : UxnScreen :=
  mkUxnScreen (replicate (Z.to_nat (width * height)) 0)
              (replicate (Z.to_nat (width * height)) 0).

(** An interpreter that returns at once. *)
Definition idle_uxn_eval (u : Uxn) (s : UxnScreen) (pc : Z)
  : Uxn * UxnScreen := (u, s).

(** An interpreter running a routine that writes 0 to port 0x82. *)
Definition poke_mask_eval (u : Uxn) (s : UxnScreen) (pc : Z)
  : Uxn * UxnScreen := emu_deo idle_screen_deo u s 0x82 0.

(** A zeroed block of 0x10000 bytes. *)
Definition zeroed_heap : list Z := replicate (Z.to_nat 0x10000) 0.

(** A VM with zeroed memory and zeroed registers, and the 128x64 planes. *)
Definition zero_uxn : Uxn := mkUxn zeroed_heap (replicate 256%nat 0).
Definition blank_screen : UxnScreen := blank_screen_resize 128 64.

(** A running session: zeroed registers, or the Button Mask preset. *)
Definition fresh_world : World :=
  mkWorld (mkUxnState false zero_uxn true false) blank_screen [].
Definition mask_world (m : Z) : World :=
  mkWorld (mkUxnState false
             (mkUxn zeroed_heap (wr (replicate 256%nat 0) 0x82 m))
             true false) blank_screen [].

(** A session whose controller vector is 0x0456 and whose screen vector is
    0x0123. *)
Definition vector_world : World :=
  mkWorld (mkUxnState false
             (mkUxn zeroed_heap
                    (wr (wr (wr (wr (replicate 256%nat 0)
                                    0x20 0x01) 0x21 0x23) 0x80 0x04)
                        0x81 0x56))
             true false) blank_screen [].

(** A three-byte program file. *)
Definition sample_rom : list Z := [0x80; 0x2a; 0x00].

(** * Properties *)

(** ** Arrays and bytes *)

Lemma rd_lookup (a : list Z) (i : nat) (v : Z) :
  a !! i = Some v → rd a (Z.of_nat i) = v.
Proof. intros H. unfold rd. by rewrite Nat2Z.id, H. Qed.

Lemma rd_wr_eq (a : list Z) (i v : Z) :
  0 ≤ i → (Z.to_nat i < length a)%nat → rd (wr a i v) i = v.
Proof.
  intros Hi Hlen. unfold rd, wr. by rewrite list_lookup_insert_eq.
Qed.

Lemma rd_wr_ne (a : list Z) (i j v : Z) :
  0 ≤ i → 0 ≤ j → i ≠ j → rd (wr a i v) j = rd a j.
Proof.
  intros Hi Hj Hne. unfold rd, wr.
  rewrite list_lookup_insert_ne; [done | lia].
Qed.

Lemma wr_rd_id (a : list Z) (i : Z) :
  (Z.to_nat i < length a)%nat → wr a i (rd a i) = a.
Proof.
  intros Hlen. unfold rd, wr.
  destruct (lookup_lt_is_Some_2 a (Z.to_nat i) Hlen) as [v Hv].
  rewrite Hv. by apply list_insert_id.
Qed.

Lemma length_wr (a : list Z) (i v : Z) : length (wr a i v) = length a.
Proof. apply length_insert. Qed.

Lemma uint8_byte (z : Z) : is_byte z → uint8 z = z.
Proof. intros H. apply Z.mod_small, H. Qed.

Lemma is_byte_shiftr (z : Z) : is_byte z ↔ 0 ≤ z ∧ Z.shiftr z 8 = 0.
Proof.
  unfold is_byte. rewrite Z.shiftr_div_pow2 by lia.
  change (2 ^ 8) with 256. rewrite Z.div_small_iff by lia. lia.
Qed.

Lemma is_byte_lor (a b : Z) : is_byte a → is_byte b → is_byte (Z.lor a b).
Proof.
  rewrite !is_byte_shiftr. intros [Ha Ha8] [Hb Hb8]. split.
  - by apply Z.lor_nonneg.
  - by rewrite Z.shiftr_lor, Ha8, Hb8.
Qed.

Lemma is_byte_land (a b : Z) : is_byte a → is_byte (Z.land a b).
Proof.
  rewrite !is_byte_shiftr. intros [Ha Ha8]. split.
  - apply Z.land_nonneg. by left.
  - by rewrite Z.shiftr_land, Ha8, Z.land_0_l.
Qed.

Lemma is_byte_button_bit (k : InputKey) : is_byte (button_bit k).
Proof. unfold is_byte. destruct k; simpl; lia. Qed.

Lemma land_shiftl8_byte (hi lo : Z) :
  is_byte lo → Z.land (Z.shiftl hi 8) lo = 0.
Proof.
  intros Hlo.
  replace lo with (Z.land lo (Z.ones 8)).
  - rewrite (Z.land_comm lo), Z.land_assoc, Z.land_ones by lia.
    rewrite Z.shiftl_mul_pow2, Z.mod_mul by lia. apply Z.land_0_l.
  - rewrite Z.land_ones by lia. apply Z.mod_small, Hlo.
Qed.

Lemma vector_at_bytes (d : list Z) (a : nat) (hi lo : Z) :
  is_byte hi → is_byte lo →
  d !! a = Some hi → d !! S a = Some lo →
  vector_at d (Z.of_nat a) = hi * 256 + lo.
Proof.
  intros Hhi Hlo Ha Ha1. unfold vector_at.
  rewrite (rd_lookup d a hi Ha).
  replace (Z.of_nat a + 1) with (Z.of_nat (S a)) by lia.
  rewrite (rd_lookup d (S a) lo Ha1).
  rewrite <- Z.lxor_lor, <- Z.add_nocarry_lxor by by apply land_shiftl8_byte.
  rewrite Z.shiftl_mul_pow2 by lia. change (2 ^ 8) with 256.
  apply Z.mod_small. unfold is_byte in *. lia.
Qed.

(** ** The compositor *)

Lemma pixel_on_spec (f b : Z) :
  pixel_on f b = true ↔
  Z.testbit f 0 = true ∨ (f = 0 ∧ Z.testbit b 0 = true).
Proof.
  assert (Hbit : ∀ z, bool_decide (Z.land z 1 ≠ 0) = Z.testbit z 0).
  { intros z. rewrite Z.bit0_odd. change 1 with (Z.ones 1).
    rewrite Z.land_ones, Z.pow_1_r, Zmod_odd by lia.
    by destruct (Z.odd z). }
  unfold pixel_on. rewrite !Hbit. destruct (decide (f = 0)) as [->|Hf].
  - rewrite Z.bits_0. split; [auto | intros [?|[_ ?]]; [discriminate | done]].
  - split; [auto | intros [?|[? _]]; done].
Qed.

Lemma elem_of_draw_row (s : UxnScreen) (y0 x y : Z) :
  CanvasDrawDot x y ∈ draw_row s y0 ↔
  y = y0 ∧ 0 ≤ x < 128 ∧
  pixel_on (rd (fg s) (y * 128 + x)) (rd (bg s) (y * 128 + x)) = true.
Proof.
  unfold draw_row. rewrite list_elem_of_bind. split.
  - intros (x' & Hin & Hx'). apply elem_of_seqZ in Hx'.
    destruct (pixel_on _ _) eqn:Hon; [|by apply elem_of_nil in Hin].
    apply list_elem_of_singleton in Hin. injection Hin as -> ->.
    split; [done|]. split; [lia | done].
  - intros (-> & Hx & Hon). exists x. rewrite Hon. split.
    + apply list_elem_of_singleton. done.
    + apply elem_of_seqZ. lia.
Qed.

Lemma draw_row_dots (s : UxnScreen) (y : Z) (c : Call) :
  c ∈ draw_row s y → ∃ x, c = CanvasDrawDot x y.
Proof.
  unfold draw_row. rewrite list_elem_of_bind. intros (x & Hin & _).
  destruct (pixel_on _ _); [|by apply elem_of_nil in Hin].
  apply list_elem_of_singleton in Hin. eauto.
Qed.

Lemma draw_frame_dots (s : UxnScreen) (c : Call) :
  c ∈ draw_frame s → ∃ x y, c = CanvasDrawDot x y.
Proof.
  unfold draw_frame. rewrite list_elem_of_bind. intros (y & Hin & _).
  apply draw_row_dots in Hin as [x ->]. eauto.
Qed.

(** C2.  The render loop draws the dot at (x, y) exactly when the position is
    inside the 128x64 frame and either bit 0 of the foreground byte is set,
    or the foreground byte is zero and bit 0 of the background byte is set;
    the five sample byte pairs of the specification come out as off, on, on,
    off, on. *)
Theorem compositor_pixel_rule (s : UxnScreen) (x y : Z) :
  (CanvasDrawDot x y ∈ draw_frame s ↔
     0 ≤ x < 128 ∧ 0 ≤ y < 64 ∧
     (Z.testbit (rd (fg s) (y * 128 + x)) 0 = true ∨
      (rd (fg s) (y * 128 + x) = 0 ∧
       Z.testbit (rd (bg s) (y * 128 + x)) 0 = true))) ∧
  (∀ f b, pixel_on f b = true ↔
     Z.testbit f 0 = true ∨ (f = 0 ∧ Z.testbit b 0 = true)) ∧
  pixel_on 0 0 = false ∧ pixel_on 0 1 = true ∧ pixel_on 1 0 = true ∧
  pixel_on 2 1 = false ∧ pixel_on 3 0 = true.
Proof.
  split; [|split; [apply pixel_on_spec | done]].
  unfold draw_frame. rewrite list_elem_of_bind. split.
  - intros (y0 & Hin & Hy0). apply elem_of_seqZ in Hy0.
    apply elem_of_draw_row in Hin as (-> & Hx & Hon).
    apply pixel_on_spec in Hon. split; [done|]. split; [lia | done].
  - intros (Hx & Hy & Hon). exists y. split.
    + apply elem_of_draw_row. split; [done|]. split; [done|].
      by apply pixel_on_spec.
    + apply elem_of_seqZ. lia.
Qed.

(** ** Device dispatch *)

Section Dispatch.

Variable screen_dei : Uxn → UxnScreen → Z → Z.
Variable screen_deo : Uxn → UxnScreen → Z → Z → Uxn * UxnScreen.

(** C4.  [emu_deo] stores the value at the address whatever the address
    is, touching no other register and no memory, and only then looks at
    the device: with selector 2 the screen handler is entered on the
    register file that already holds the value, otherwise the stored file
    is the result. *)
Theorem emu_deo_stores_before_dispatch (u : Uxn) (s : UxnScreen)
    (addr value : Z) :
  length (dev u) = 256%nat → 0 ≤ addr < 256 →
  ∃ u1,
    rd (dev u1) addr = value ∧
    (∀ a, 0 ≤ a → a ≠ addr → rd (dev u1) a = rd (dev u) a) ∧
    ram u1 = ram u ∧
    emu_deo screen_deo u s addr value =
      if decide (Z.shiftr addr 4 = 2)
      then screen_deo u1 s 0x20 (Z.land addr 0x0f)
      else (u1, s).
Proof.
  intros Hlen Haddr.
  exists (mkUxn (ram u) (wr (dev u) addr value)). simpl.
  split; [apply rd_wr_eq; lia|].
  split; [intros a Ha Hne; apply rd_wr_ne; lia|].
  split; reflexivity.
Qed.

(** C5.  At an address whose selector is not 2, a write followed by a read
    of the same address returns the value written. *)
Theorem emu_deo_then_emu_dei (u : Uxn) (s : UxnScreen) (A v : Z) :
  length (dev u) = 256%nat → 0 ≤ A < 256 → Z.shiftr A 4 ≠ 2 →
  emu_dei screen_dei (emu_deo screen_deo u s A v).1
                     (emu_deo screen_deo u s A v).2 A = v.
Proof.
  intros Hlen HA Hsel. unfold emu_dei, emu_deo.
  rewrite !decide_False by done. simpl.
  apply rd_wr_eq; lia.
Qed.

End Dispatch.

Lemma emu_deo_stores_before_dispatch_witness :
  ∃ u1,
    rd (dev u1) 0x28 = 7 ∧
    (∀ a, 0 ≤ a → a ≠ 0x28 → rd (dev u1) a = rd (dev zero_uxn) a) ∧
    ram u1 = ram zero_uxn ∧
    emu_deo idle_screen_deo zero_uxn blank_screen 0x28 7 =
      if decide (Z.shiftr 0x28 4 = 2)
      then idle_screen_deo u1 blank_screen 0x20 (Z.land 0x28 0x0f)
      else (u1, blank_screen).
Proof.
  apply (emu_deo_stores_before_dispatch idle_screen_deo zero_uxn blank_screen
           0x28 7); [reflexivity | lia].
Defined.

Lemma emu_deo_then_emu_dei_witness :
  emu_dei idle_screen_dei
    (emu_deo idle_screen_deo zero_uxn blank_screen 0x82 7).1
    (emu_deo idle_screen_deo zero_uxn blank_screen 0x82 7).2 0x82 = 7.
Proof.
  apply (emu_deo_then_emu_dei idle_screen_dei idle_screen_deo zero_uxn
           blank_screen 0x82 7); [reflexivity | lia | vm_compute; discriminate].
Defined.

(** ** The callbacks, run from a free mutex *)

Section Callbacks.

Variable uxn_eval : Uxn → UxnScreen → Z → Uxn * UxnScreen.

Lemma timer_callback_run (w : World) :
  mutex (state w) = false →
  timer_callback uxn_eval w =
    let u := uxn (state w) in
    let r := uxn_eval u (uxn_screen w) (screen_vector u) in
    Some (tt, mkWorld (mkUxnState false r.1 (running (state w)) true) r.2
                      (trace w ++ [CallEval u (screen_vector u)])).
Proof.
  intros Hm. unfold timer_callback, bind, furi_mutex_acquire.
  by rewrite Hm.
Qed.

Lemma input_callback_press_run (k : InputKey) (w : World) :
  mutex (state w) = false →
  input_callback uxn_eval (mkInputEvent k InputTypePress) w =
    let u := uxn (state w) in
    let m := uint8 (Z.lor (rd (dev u) 0x82) (button_bit k)) in
    let u1 := mkUxn (ram u) (wr (dev u) 0x82 m) in
    let r := uxn_eval u1 (uxn_screen w) (controller_vector u) in
    Some (tt, mkWorld (mkUxnState false r.1 (running (state w))
                                  (redraw (state w))) r.2
                      (trace w ++ [CallEval u1 (controller_vector u)])).
Proof.
  intros Hm. unfold input_callback, bind, furi_mutex_acquire.
  rewrite Hm. simpl. by rewrite andb_false_r.
Qed.

Lemma input_callback_release_run (k : InputKey) (w : World) :
  mutex (state w) = false →
  input_callback uxn_eval (mkInputEvent k InputTypeRelease) w =
    let u := uxn (state w) in
    let m := uint8 (Z.land (rd (dev u) 0x82) (Z.lnot (button_bit k))) in
    let u1 := mkUxn (ram u) (wr (dev u) 0x82 m) in
    let r := uxn_eval u1 (uxn_screen w) (controller_vector u) in
    Some (tt, mkWorld (mkUxnState false r.1 (running (state w))
                                  (redraw (state w))) r.2
                      (trace w ++ [CallEval u1 (controller_vector u)])).
Proof.
  intros Hm. unfold input_callback, bind, furi_mutex_acquire.
  rewrite Hm. simpl. by rewrite andb_false_r.
Qed.

Lemma input_callback_other_run (e : InputEvent) (w : World) :
  mutex (state w) = false →
  type e ≠ InputTypePress → type e ≠ InputTypeRelease →
  input_callback uxn_eval e w =
    let stop := bool_decide (key e = InputKeyBack)
                && bool_decide (type e = InputTypeLong) in
    Some (tt, mkWorld (mkUxnState false (uxn (state w))
                         (if stop then false else running (state w))
                         (redraw (state w)))
                      (uxn_screen w) (trace w)).
Proof.
  intros Hm Hp Hr. unfold input_callback, bind, furi_mutex_acquire.
  rewrite Hm. simpl. rewrite !decide_False by done. simpl.
  by destruct (_ && _).
Qed.

Lemma eval_calls_snoc (t : list Call) (u : Uxn) (pc : Z) :
  eval_calls (t ++ [CallEval u pc]) = eval_calls t ++ [pc].
Proof. unfold eval_calls. by rewrite omap_app. Qed.

Lemma vector_at_zero (d : list Z) (a : Z) :
  rd d a = 0 → rd d (a + 1) = 0 → vector_at d a = 0.
Proof. intros Hhi Hlo. unfold vector_at. by rewrite Hhi, Hlo. Qed.

(** C1, as the code has it.  Neither callback tests the vector: every
    timer tick resumes the interpreter once, at the screen vector, and
    every press and every release resumes it once, at the controller
    vector; with both vector bytes zero that address is 0 and the call is
    made all the same. *)
Theorem callbacks_resume_unconditionally (w : World) :
  mutex (state w) = false →
  (∃ w', timer_callback uxn_eval w = Some (tt, w') ∧
     eval_calls (trace w') =
       eval_calls (trace w) ++ [screen_vector (uxn (state w))]) ∧
  (∀ k ty, ty = InputTypePress ∨ ty = InputTypeRelease →
     ∃ w', input_callback uxn_eval (mkInputEvent k ty) w = Some (tt, w') ∧
       eval_calls (trace w') =
         eval_calls (trace w) ++ [controller_vector (uxn (state w))]) ∧
  (rd (dev (uxn (state w))) 0x20 = 0 → rd (dev (uxn (state w))) 0x21 = 0 →
     screen_vector (uxn (state w)) = 0) ∧
  (rd (dev (uxn (state w))) 0x80 = 0 → rd (dev (uxn (state w))) 0x81 = 0 →
     controller_vector (uxn (state w)) = 0).
Proof.
  intros Hm. repeat split.
  - eexists. split; [by apply timer_callback_run|].
    simpl. apply eval_calls_snoc.
  - intros k ty [->| ->]; eexists.
    + split; [by apply input_callback_press_run|].
      simpl. apply eval_calls_snoc.
    + split; [by apply input_callback_release_run|].
      simpl. apply eval_calls_snoc.
  - apply vector_at_zero.
  - apply vector_at_zero.
Qed.

(** C7.  A long press of the back key clears [running], hands nothing to
    the interpreter and leaves the VM (so the Button Mask register), the
    planes and the redraw flag as they were. *)
Theorem long_back_stops_session (w : World) :
  mutex (state w) = false →
  ∃ w', input_callback uxn_eval (mkInputEvent InputKeyBack InputTypeLong) w
          = Some (tt, w') ∧
    running (state w') = false ∧
    mask w' = mask w ∧
    uxn (state w') = uxn (state w) ∧
    trace w' = trace w ∧
    eval_calls (trace w') = eval_calls (trace w) ∧
    uxn_screen w' = uxn_screen w ∧
    redraw (state w') = redraw (state w) ∧
    mutex (state w') = false.
Proof.
  intros Hm. eexists. split.
  - by apply input_callback_other_run.
  - done.
Qed.

(** C8.  The address a callback resumes at is computed from the two
    bytes of its register pair alone: with [hi] in the even register and
    [lo] in the odd one it is [hi * 256 + lo], for registers 0x80 and 0x81
    on press and release events and for registers 0x20 and 0x21 on timer
    ticks. *)
Theorem vector_resolution (w : World) (chi clo shi slo : Z) :
  mutex (state w) = false →
  is_byte chi → is_byte clo → is_byte shi → is_byte slo →
  dev (uxn (state w)) !! 0x80%nat = Some chi →
  dev (uxn (state w)) !! 0x81%nat = Some clo →
  dev (uxn (state w)) !! 0x20%nat = Some shi →
  dev (uxn (state w)) !! 0x21%nat = Some slo →
  controller_vector (uxn (state w)) = chi * 256 + clo ∧
  screen_vector (uxn (state w)) = shi * 256 + slo ∧
  (∀ k ty, ty = InputTypePress ∨ ty = InputTypeRelease →
     ∃ w', input_callback uxn_eval (mkInputEvent k ty) w = Some (tt, w') ∧
       eval_calls (trace w') = eval_calls (trace w) ++ [chi * 256 + clo]) ∧
  (∃ w', timer_callback uxn_eval w = Some (tt, w') ∧
     eval_calls (trace w') = eval_calls (trace w) ++ [shi * 256 + slo]).
Proof.
  intros Hm Hchi Hclo Hshi Hslo Hc0 Hc1 Hs0 Hs1.
  assert (Hcv : controller_vector (uxn (state w)) = chi * 256 + clo)
    by apply (vector_at_bytes _ 0x80 chi clo Hchi Hclo Hc0 Hc1).
  assert (Hsv : screen_vector (uxn (state w)) = shi * 256 + slo)
    by apply (vector_at_bytes _ 0x20 shi slo Hshi Hslo Hs0 Hs1).
  split; [done|]. split; [done|]. rewrite <- Hcv, <- Hsv. split.
  - intros k ty [->| ->]; eexists.
    + split; [by apply input_callback_press_run|].
      simpl. apply eval_calls_snoc.
    + split; [by apply input_callback_release_run|].
      simpl. apply eval_calls_snoc.
  - eexists. split; [by apply timer_callback_run|].
    simpl. apply eval_calls_snoc.
Qed.

End Callbacks.

(** ** The Button Mask *)

Lemma recognized_cases (k : InputKey) :
  recognized k ↔ k ≠ InputKeyMAX.
Proof.
  unfold recognized. rewrite !elem_of_cons, elem_of_nil.
  destruct k; intuition congruence.
Qed.

Lemma button_bit_unrecognized (k : InputKey) :
  ¬ recognized k → button_bit k = 0.
Proof.
  rewrite recognized_cases. intros Hk.
  destruct k; try reflexivity; exfalso; apply Hk; discriminate.
Qed.

Lemma button_bit_single (k : InputKey) :
  recognized k → ∃ n, 0 ≤ n < 8 ∧ button_bit k = 2 ^ n.
Proof.
  rewrite recognized_cases. intros Hk. destruct k; simpl;
    [exists 4 | exists 5 | exists 7 | exists 6 | exists 0 | exists 1 | done];
    (split; [lia | reflexivity]).
Qed.

Lemma button_bit_disjoint (k k' : InputKey) :
  k ≠ k' → Z.land (button_bit k) (button_bit k') = 0.
Proof. destruct k, k'; intros Hne; try reflexivity; done. Qed.

Lemma button_bit_spare (k : InputKey) : Z.land (button_bit k) 0x0c = 0.
Proof. by destruct k. Qed.

Lemma uint8_land_ones (z : Z) : uint8 z = Z.land z (Z.ones 8).
Proof. unfold uint8. by rewrite Z.land_ones by lia. Qed.

Lemma press_keeps_clear (m b c : Z) :
  Z.land m c = 0 → Z.land b c = 0 → Z.land (uint8 (Z.lor m b)) c = 0.
Proof.
  intros Hm Hb. rewrite uint8_land_ones.
  rewrite <- Z.land_assoc, (Z.land_comm (Z.ones 8)), Z.land_assoc.
  by rewrite Z.land_lor_distr_l, Hm, Hb.
Qed.

Lemma release_keeps_clear (m b c : Z) :
  Z.land m c = 0 → Z.land (uint8 (Z.land m (Z.lnot b))) c = 0.
Proof.
  intros Hm. rewrite uint8_land_ones.
  rewrite <- !Z.land_assoc, (Z.land_comm (Z.lnot b)).
  rewrite <- (Z.land_assoc (Z.ones 8)), (Z.land_comm (Z.ones 8)).
  by rewrite !Z.land_assoc, Hm.
Qed.

Lemma press_mask_byte (m : Z) (k : InputKey) :
  is_byte m → uint8 (Z.lor m (button_bit k)) = Z.lor m (button_bit k).
Proof.
  intros Hm. apply uint8_byte, is_byte_lor; [done | apply is_byte_button_bit].
Qed.

Lemma release_mask_byte (m b : Z) :
  is_byte m → uint8 (Z.land m (Z.lnot b)) = Z.land m (Z.lnot b).
Proof. intros Hm. by apply uint8_byte, is_byte_land. Qed.

Lemma lor_then_clear (m b : Z) :
  Z.land m b = 0 → Z.land (Z.lor m b) (Z.lnot b) = m.
Proof.
  intros Hmb.
  rewrite Z.land_lor_distr_l, Z.land_lnot_diag, Z.lor_0_r, <- Z.ldiff_land.
  rewrite <- (Z.lor_ldiff_and m b) at 2. by rewrite Hmb, Z.lor_0_r.
Qed.

Section ButtonMask.

Variable uxn_eval : Uxn → UxnScreen → Z → Uxn * UxnScreen.

(** C10.  For a key outside the six, [button_bit] is 0, both mask updates
    are the identity on a byte, and a press or release event hands the
    interpreter the VM exactly as it was before the event, at the
    controller vector. *)
Theorem unrecognized_key_event (w : World) (k : InputKey) (ty : InputType) :
  mutex (state w) = false →
  length (dev (uxn (state w))) = 256%nat →
  is_byte (mask w) →
  ¬ recognized k →
  ty = InputTypePress ∨ ty = InputTypeRelease →
  button_bit k = 0 ∧
  uint8 (Z.lor (mask w) (button_bit k)) = mask w ∧
  uint8 (Z.land (mask w) (Z.lnot (button_bit k))) = mask w ∧
  ∃ w', input_callback uxn_eval (mkInputEvent k ty) w = Some (tt, w') ∧
    trace w' =
      trace w ++ [CallEval (uxn (state w))
                           (controller_vector (uxn (state w)))] ∧
    eval_calls (trace w') =
      eval_calls (trace w) ++ [controller_vector (uxn (state w))] ∧
    uxn (state w') =
      (uxn_eval (uxn (state w)) (uxn_screen w)
                (controller_vector (uxn (state w)))).1.
Proof.
  intros Hm Hlen Hbyte Hk Hty.
  pose proof (button_bit_unrecognized k Hk) as Hbit.
  assert (Hor : uint8 (Z.lor (mask w) (button_bit k)) = mask w).
  { by rewrite Hbit, Z.lor_0_r, uint8_byte. }
  assert (Hand : uint8 (Z.land (mask w) (Z.lnot (button_bit k))) = mask w).
  { rewrite Hbit. change (Z.lnot 0) with (-1).
    by rewrite Z.land_m1_r, uint8_byte. }
  assert (Hsame : mkUxn (ram (uxn (state w)))
                        (wr (dev (uxn (state w))) 0x82 (mask w))
                  = uxn (state w)).
  { unfold mask. rewrite wr_rd_id by lia. by destruct (uxn (state w)). }
  do 3 (split; [done|]).
  unfold mask in Hor, Hand.
  destruct Hty as [->| ->]; eexists.
  - split; [by apply input_callback_press_run|]. simpl.
    rewrite Hor. fold (mask w). rewrite Hsame.
    split; [done|]. split; [apply eval_calls_snoc | done].
  - split; [by apply input_callback_release_run|]. simpl.
    rewrite Hand. fold (mask w). rewrite Hsame.
    split; [done|]. split; [apply eval_calls_snoc | done].
Qed.

(** The interpreter resizes no register file and, in this section, leaves
    the Button Mask register to the host. *)
Hypothesis uxn_eval_dev_length : ∀ u s pc,
  length (dev (uxn_eval u s pc).1) = length (dev u).
Hypothesis uxn_eval_keeps_mask : ∀ u s pc,
  rd (dev (uxn_eval u s pc).1) 0x82 = rd (dev u) 0x82.

Lemma press_mask (w : World) (k : InputKey) :
  mutex (state w) = false → length (dev (uxn (state w))) = 256%nat →
  ∃ w', input_callback uxn_eval (mkInputEvent k InputTypePress) w
          = Some (tt, w') ∧
    mask w' = uint8 (Z.lor (mask w) (button_bit k)) ∧
    mutex (state w') = false ∧
    length (dev (uxn (state w'))) = 256%nat.
Proof.
  intros Hm Hlen. eexists. split; [by apply input_callback_press_run|].
  unfold mask. simpl.
  rewrite uxn_eval_keeps_mask, uxn_eval_dev_length. simpl.
  rewrite rd_wr_eq, length_wr by lia. done.
Qed.

Lemma release_mask (w : World) (k : InputKey) :
  mutex (state w) = false → length (dev (uxn (state w))) = 256%nat →
  ∃ w', input_callback uxn_eval (mkInputEvent k InputTypeRelease) w
          = Some (tt, w') ∧
    mask w' = uint8 (Z.land (mask w) (Z.lnot (button_bit k))) ∧
    mutex (state w') = false ∧
    length (dev (uxn (state w'))) = 256%nat.
Proof.
  intros Hm Hlen. eexists. split; [by apply input_callback_release_run|].
  unfold mask. simpl.
  rewrite uxn_eval_keeps_mask, uxn_eval_dev_length. simpl.
  rewrite rd_wr_eq, length_wr by lia. done.
Qed.

Lemma other_mask (w : World) (e : InputEvent) :
  mutex (state w) = false →
  type e ≠ InputTypePress → type e ≠ InputTypeRelease →
  ∃ w', input_callback uxn_eval e w = Some (tt, w') ∧
    mask w' = mask w ∧
    mutex (state w') = false ∧
    dev (uxn (state w')) = dev (uxn (state w)).
Proof.
  intros Hm Hp Hr. eexists.
  split; [by apply input_callback_other_run|]. done.
Qed.

(** Bits that no press in the list sets stay clear over the whole list. *)
Lemma inputs_keep_clear (events : list InputEvent) (c : Z) :
  ∀ w,
    mutex (state w) = false → length (dev (uxn (state w))) = 256%nat →
    Z.land (mask w) c = 0 →
    (∀ e, e ∈ events → type e = InputTypePress →
          Z.land (button_bit (key e)) c = 0) →
    ∃ w', run uxn_eval (Input <$> events) w = Some (tt, w') ∧
      Z.land (mask w') c = 0.
Proof.
  induction events as [|e events IH]; intros w Hm Hlen Hc Hev.
  - exists w. done.
  - assert (∃ w1, input_callback uxn_eval e w = Some (tt, w1) ∧
              Z.land (mask w1) c = 0 ∧ mutex (state w1) = false ∧
              length (dev (uxn (state w1))) = 256%nat)
      as (w1 & Hrun & Hc1 & Hm1 & Hlen1).
    { destruct e as [k ty].
      destruct (decide (ty = InputTypePress)) as [->|Hp];
        [|destruct (decide (ty = InputTypeRelease)) as [->|Hr]].
      - destruct (press_mask w k Hm Hlen) as (w1 & ? & Hmask & ? & ?).
        exists w1. rewrite Hmask. split; [done|]. split; [|done].
        apply press_keeps_clear; [done|].
        apply (Hev (mkInputEvent k InputTypePress)); [left | done].
      - destruct (release_mask w k Hm Hlen) as (w1 & ? & Hmask & ? & ?).
        exists w1. rewrite Hmask. split; [done|]. split; [|done].
        by apply release_keeps_clear.
      - destruct (other_mask w (mkInputEvent k ty) Hm Hp Hr)
          as (w1 & ? & Hmask & ? & Hdev).
        exists w1. rewrite Hmask, Hdev. done. }
    destruct (IH w1 Hm1 Hlen1 Hc1) as (w' & Hrun' & Hc').
    { intros e' He'. apply Hev. by right. }
    exists w'. split; [|done].
    simpl. unfold bind. by rewrite Hrun.
Qed.

(** C6, as the code has it.  Each of the six keys owns one bit; the bits
    are pairwise disjoint and none is 0x04 or 0x08.  A press ORs the key's
    bit into the mask and the release that follows ANDs it out again;
    when the bit was clear before the press, and the interpreter leaves the
    register alone, the mask is back at its value from before the press.
    Over any list of events, the bit of a key that is never pressed, and
    the two spare bits, stay 0 once they are 0. *)
Theorem button_mask_press_release (w : World) (K : InputKey) :
  mutex (state w) = false →
  length (dev (uxn (state w))) = 256%nat →
  is_byte (mask w) →
  recognized K →
  (∃ n, 0 ≤ n < 8 ∧ button_bit K = 2 ^ n) ∧
  (∀ K', K' ≠ K → Z.land (button_bit K) (button_bit K') = 0) ∧
  Z.land (button_bit K) 0x0c = 0 ∧
  (∃ w1 w2,
     input_callback uxn_eval (mkInputEvent K InputTypePress) w
       = Some (tt, w1) ∧
     mask w1 = Z.lor (mask w) (button_bit K) ∧
     input_callback uxn_eval (mkInputEvent K InputTypeRelease) w1
       = Some (tt, w2) ∧
     mask w2 = Z.land (mask w1) (Z.lnot (button_bit K)) ∧
     (Z.land (mask w) (button_bit K) = 0 → mask w2 = mask w)) ∧
  (∀ events : list InputEvent,
     (∀ e, e ∈ events → type e = InputTypePress → key e ≠ K) →
     Z.land (mask w) (button_bit K) = 0 →
     ∃ w', run uxn_eval (Input <$> events) w = Some (tt, w') ∧
       Z.land (mask w') (button_bit K) = 0) ∧
  (∀ events : list InputEvent,
     Z.land (mask w) 0x0c = 0 →
     ∃ w', run uxn_eval (Input <$> events) w = Some (tt, w') ∧
       Z.land (mask w') 0x0c = 0).
Proof.
  intros Hm Hlen Hbyte HK.
  split; [by apply button_bit_single|].
  split; [intros K' HK'; by apply button_bit_disjoint|].
  split; [apply button_bit_spare|].
  split; [|split].
  - destruct (press_mask w K Hm Hlen) as (w1 & Hrun1 & Hmask1 & Hm1 & Hlen1).
    destruct (release_mask w1 K Hm1 Hlen1) as (w2 & Hrun2 & Hmask2 & _ & _).
    rewrite press_mask_byte in Hmask1 by done.
    rewrite release_mask_byte in Hmask2
      by (rewrite Hmask1; apply is_byte_lor;
          [done | apply is_byte_button_bit]).
    exists w1, w2. do 4 (split; [done|]).
    intros Hclear. rewrite Hmask2, Hmask1. by apply lor_then_clear.
  - intros events Hev Hclear.
    apply inputs_keep_clear; [done .. |].
    intros e He Hty. apply button_bit_disjoint. by apply Hev.
  - intros events Hclear.
    apply inputs_keep_clear; [done .. |].
    intros e _ _. apply button_bit_spare.
Qed.

End ButtonMask.

(** ** The render loop and the dirty flag *)

Lemma commits_app (t1 t2 : list Call) :
  commits (t1 ++ t2) = (commits t1 + commits t2)%nat.
Proof. unfold commits. by rewrite filter_app, length_app. Qed.

Lemma commits_draw_frame (s : UxnScreen) : commits (draw_frame s) = 0%nat.
Proof.
  unfold commits.
  assert (Hdots : Forall (λ c, ¬ is_commit c = true) (draw_frame s)).
  { apply Forall_forall. intros c Hc.
    apply draw_frame_dots in Hc as (x & y & ->). discriminate. }
  induction Hdots as [|c t Hc _ IH]; [done|].
  by rewrite filter_cons_False.
Qed.

Lemma commits_frame (t : list Call) (s : UxnScreen) :
  commits (t ++ [CanvasClear] ++ draw_frame s ++ [CanvasCommit; DelayTick 2])
  = S (commits t).
Proof.
  rewrite !commits_app, commits_draw_frame. unfold commits. simpl. lia.
Qed.

Lemma render_loop_pass_run (w : World) :
  mutex (state w) = false → running (state w) = true →
  render_loop_pass w =
    Some (tt, mkWorld (mkUxnState false (uxn (state w)) true false)
                      (uxn_screen w)
                      (if redraw (state w)
                       then trace w ++ [CanvasClear]
                              ++ draw_frame (uxn_screen w)
                              ++ [CanvasCommit; DelayTick 2]
                       else trace w ++ [DelayTick 2])).
Proof.
  intros Hm Hr. unfold render_loop_pass, bind, gets. rewrite Hr. simpl.
  unfold bind, furi_mutex_acquire. rewrite Hm. simpl.
  destruct (redraw (state w)) eqn:Hd;
    unfold modify, log, set_mutex, set_redraw; simpl; rewrite Hr.
  - by rewrite <- !app_assoc.
  - by rewrite Hd.
Qed.

Lemma run_app (uxn_eval : Uxn → UxnScreen → Z → Uxn * UxnScreen)
    (s1 s2 : list Actor) (w : World) :
  run uxn_eval (s1 ++ s2) w =
    match run uxn_eval s1 w with
    | Some (_, w1) => run uxn_eval s2 w1
    | None => None
    end.
Proof.
  revert w. induction s1 as [|a s1 IH]; intros w; [done|].
  simpl. unfold bind. destruct (step uxn_eval a w) as [[[] w1]|]; [|done].
  apply IH.
Qed.

Section DirtyFlag.

Variable uxn_eval : Uxn → UxnScreen → Z → Uxn * UxnScreen.

(** Ticks commit nothing; one or more of them leave the flag set. *)
Lemma ticks_run (n : nat) :
  ∀ w, mutex (state w) = false →
    ∃ w', run uxn_eval (replicate n Tick) w = Some (tt, w') ∧
      mutex (state w') = false ∧
      running (state w') = running (state w) ∧
      commits (trace w') = commits (trace w) ∧
      redraw (state w') = (if n is O then redraw (state w) else true).
Proof.
  induction n as [|n IH]; intros w Hm.
  - exists w. done.
  - simpl. unfold bind. rewrite timer_callback_run by done.
    simpl. set (w1 := mkWorld _ _ _).
    destruct (IH w1) as (w' & Hrun & Hm' & Hr' & Hc' & Hd'); [done|].
    exists w'. rewrite Hrun, Hm', Hr', Hc'. subst w1. simpl.
    rewrite commits_app, Nat.add_0_r.
    do 4 (split; [done|]).
    rewrite Hd'. by destruct n.
Qed.

(** C9.  After two or more ticks the flag is set and nothing has been
    committed; the pass of the render loop that follows commits one frame
    and clears the flag, and a second pass with no tick in between commits
    nothing more. *)
Theorem dirty_flag_coalesces (n : nat) (w : World) :
  (2 ≤ n)%nat →
  mutex (state w) = false → running (state w) = true →
  ∃ w1 w2 w3,
    run uxn_eval (replicate n Tick) w = Some (tt, w1) ∧
    redraw (state w1) = true ∧
    commits (trace w1) = commits (trace w) ∧
    run uxn_eval (replicate n Tick ++ [Pass]) w = Some (tt, w2) ∧
    trace w2 = trace w1 ++ [CanvasClear] ++ draw_frame (uxn_screen w1)
                        ++ [CanvasCommit; DelayTick 2] ∧
    commits (trace w2) = S (commits (trace w)) ∧
    redraw (state w2) = false ∧
    run uxn_eval (replicate n Tick ++ [Pass; Pass]) w = Some (tt, w3) ∧
    commits (trace w3) = S (commits (trace w)) ∧
    redraw (state w3) = false.
Proof.
  intros Hn Hm Hr.
  destruct (ticks_run n w Hm) as (w1 & Hrun1 & Hm1 & Hr1 & Hc1 & Hd1).
  assert (Hd : redraw (state w1) = true).
  { rewrite Hd1. destruct n; [lia | done]. }
  rewrite Hr in Hr1.
  pose proof (render_loop_pass_run w1 Hm1 Hr1) as Hpass1.
  rewrite Hd in Hpass1. set (w2 := mkWorld _ _ _) in Hpass1.
  assert (Hc2 : commits (trace w2) = S (commits (trace w)))
    by (subst w2; cbn [trace]; by rewrite commits_frame, Hc1).
  assert (Hd2 : redraw (state w2) = false) by done.
  assert (Ht2 : trace w2 = trace w1 ++ [CanvasClear]
                  ++ draw_frame (uxn_screen w1)
                  ++ [CanvasCommit; DelayTick 2]) by done.
  pose proof (render_loop_pass_run w2 eq_refl eq_refl) as Hpass2.
  clearbody w2. rewrite Hd2 in Hpass2.
  set (w3 := mkWorld _ _ _) in Hpass2.
  exists w1, w2, w3.
  rewrite !run_app, Hrun1. simpl. unfold bind.
  rewrite Hpass1, Hpass2.
  do 7 (split; [done|]).
  split; [done|]. split; [|done].
  subst w3. cbn [trace]. rewrite commits_app, Hc2. apply Nat.add_0_r.
Qed.

End DirtyFlag.

(** ** Loading a program *)

Lemma storage_file_read_below (file buf : list Z) (off len a : Z) :
  0 ≤ a < off → rd (storage_file_read file buf off len) a = rd buf a.
Proof.
  intros Ha. unfold rd, storage_file_read.
  rewrite list_lookup_inserts_lt; [done | lia].
Qed.

Lemma storage_file_read_at (file buf : list Z) (off len i : Z) :
  0 ≤ off → 0 ≤ i < len → i < Z.of_nat (length file) →
  off + i < Z.of_nat (length buf) →
  rd (storage_file_read file buf off len) (off + i) = rd file i.
Proof.
  intros Hoff Hi Hfile Hbuf. unfold rd, storage_file_read.
  rewrite list_lookup_inserts; [|rewrite length_take; lia | lia].
  replace (Z.to_nat (off + i) - Z.to_nat off)%nat with (Z.to_nat i) by lia.
  rewrite lookup_take_lt; [done | lia].
Qed.

Lemma storage_file_read_above (file buf : list Z) (off len a : Z) :
  0 ≤ off → 0 ≤ len → off + Z.of_nat (length file) ≤ a →
  rd (storage_file_read file buf off len) a = rd buf a.
Proof.
  intros Hoff Hlen Ha. unfold rd, storage_file_read.
  rewrite list_lookup_inserts_ge; [done | rewrite length_take; lia].
Qed.

Lemma length_storage_file_read (file buf : list Z) (off len : Z) :
  length (storage_file_read file buf off len) = length buf.
Proof. apply length_inserts. Qed.

Lemma length_malloc (size : Z) :
  0 ≤ size → Z.of_nat (length (malloc size)) = size.
Proof. intros Hsize. unfold malloc. rewrite length_replicate. lia. Qed.

Lemma rd_malloc (size a : Z) : rd (malloc size) a = 0.
Proof.
  unfold rd, malloc. destruct (_ !! _) as [b|] eqn:Hb; [|done].
  by apply lookup_replicate in Hb as [-> _].
Qed.

Section Load.

Variable uxn_eval : Uxn → UxnScreen → Z → Uxn * UxnScreen.
Variable screen_resize : Z → Z → UxnScreen.

Lemma uxn_app_start_run (heap file : list Z) :
  uxn_app_start uxn_eval screen_resize heap (Some file) initial_world =
    let u0 := mkUxn (storage_file_read file heap 0x100 (0x10000 - 0x100))
                    (replicate 0x100%nat 0) in
    let r := uxn_eval u0 (screen_resize 128 64) 0x100 in
    Some (tt, mkWorld (mkUxnState false r.1 true false) r.2
                      [CallEval u0 0x100]).
Proof. reflexivity. Qed.

(** Where the loader writes: the file from offset 0x100 on, nothing below
    it and nothing past the end of the file. *)
Lemma load_memory_layout (heap file : list Z) :
  Z.of_nat (length heap) = 0x10000 →
  let ram0 := storage_file_read file heap 0x100 (0x10000 - 0x100) in
  Z.of_nat (length ram0) = 0x10000 ∧
  (∀ i, 0 ≤ i < Z.of_nat (length file) → i < 0x10000 - 0x100 →
        rd ram0 (0x100 + i) = rd file i) ∧
  (∀ a, 0 ≤ a < 0x100 → rd ram0 a = rd heap a) ∧
  (∀ a, 0x100 + Z.of_nat (length file) ≤ a → rd ram0 a = rd heap a).
Proof.
  intros Hheap ram0. unfold ram0.
  split; [by rewrite length_storage_file_read|].
  split; [intros i Hi Hfit; apply storage_file_read_at; lia|].
  split; [intros a Ha; by apply storage_file_read_below|].
  intros a Ha. apply storage_file_read_above; lia.
Qed.

(** C3.  Memory is the allocator's zero-filled block of 0x10000 bytes, and
    the loader writes into it from offset 256 on only.  So at the first
    resumption (address 0x100, the only interpreter call of the load) the
    first 256 bytes of VM memory, offsets 0 through 255, are zero, and the
    bytes of the file lie from offset 256 on, up to the 0xff00 bytes that
    fit; memory past the end of the file is zero as well. *)
Theorem program_loaded_at_0x100 (file : list Z) :
  ∃ w' u0,
    uxn_app_start uxn_eval screen_resize (malloc 0x10000) (Some file)
      initial_world = Some (tt, w') ∧
    trace w' = [CallEval u0 0x100] ∧
    running (state w') = true ∧
    dev u0 = replicate 0x100%nat 0 ∧
    Z.of_nat (length (ram u0)) = 0x10000 ∧
    (∀ a, 0 ≤ a < 0x100 → rd (ram u0) a = 0) ∧
    (∀ i, 0 ≤ i < Z.of_nat (length file) → i < 0x10000 - 0x100 →
          rd (ram u0) (0x100 + i) = rd file i) ∧
    (∀ a, 0x100 + Z.of_nat (length file) ≤ a → rd (ram u0) a = 0).
Proof.
  pose (u0 := mkUxn (storage_file_read file (malloc 0x10000) 0x100
                                       (0x10000 - 0x100))
                    (replicate 0x100%nat 0)).
  pose (r := uxn_eval u0 (screen_resize 128 64) 0x100).
  exists (mkWorld (mkUxnState false r.1 true false) r.2 [CallEval u0 0x100]).
  exists u0.
  split; [apply uxn_app_start_run|].
  do 3 (split; [reflexivity|]).
  destruct (load_memory_layout (malloc 0x10000) file)
    as (Hlen & Hfile & Hbelow & Habove); [apply length_malloc; lia|].
  unfold u0. cbn [ram].
  split; [exact Hlen|].
  split; [intros a Ha; rewrite Hbelow by done; apply rd_malloc|].
  split; [exact Hfile|].
  intros a Ha. rewrite Habove by done. apply rd_malloc.
Qed.

End Load.

(** ** Runs on the sample states *)

Lemma callbacks_resume_unconditionally_witness :
  (∃ w', timer_callback idle_uxn_eval vector_world = Some (tt, w') ∧
     eval_calls (trace w') = [0x0123]) ∧
  (∃ w', input_callback idle_uxn_eval
           (mkInputEvent InputKeyUp InputTypeRelease) vector_world
           = Some (tt, w') ∧
     eval_calls (trace w') = [0x0456]).
Proof.
  destruct (callbacks_resume_unconditionally idle_uxn_eval vector_world)
    as ((w1 & Hrun1 & Hcalls1) & Hinput & _); [reflexivity|].
  destruct (Hinput InputKeyUp InputTypeRelease) as (w2 & Hrun2 & Hcalls2);
    [by right|].
  split; [exists w1 | exists w2]; (split; [assumption|]).
  - exact Hcalls1.
  - exact Hcalls2.
Defined.

(** C1 as stated fails: with all four vector bytes zero, a timer tick and a
    key press each resume the interpreter, at address 0. *)
Lemma zero_vector_still_resumes :
  rd (dev (uxn (state fresh_world))) 0x20 = 0 ∧
  rd (dev (uxn (state fresh_world))) 0x21 = 0 ∧
  rd (dev (uxn (state fresh_world))) 0x80 = 0 ∧
  rd (dev (uxn (state fresh_world))) 0x81 = 0 ∧
  eval_calls (trace fresh_world) = [] ∧
  (∃ w', timer_callback idle_uxn_eval fresh_world = Some (tt, w') ∧
     eval_calls (trace w') = [0]) ∧
  (∃ w', input_callback idle_uxn_eval
           (mkInputEvent InputKeyOk InputTypePress) fresh_world
           = Some (tt, w') ∧
     eval_calls (trace w') = [0]).
Proof.
  do 5 (split; [reflexivity|]).
  split; eexists.
  - split; [by apply timer_callback_run | reflexivity].
  - split; [by apply input_callback_press_run | reflexivity].
Qed.

Lemma long_back_stops_session_witness :
  ∃ w', input_callback idle_uxn_eval
          (mkInputEvent InputKeyBack InputTypeLong) (mask_world 0x10)
          = Some (tt, w') ∧
    running (state w') = false ∧ mask w' = 0x10 ∧ trace w' = [].
Proof.
  destruct (long_back_stops_session idle_uxn_eval (mask_world 0x10))
    as (w' & Hrun & Hstop & Hmask & _ & Htrace & _); [reflexivity|].
  exists w'. split; [exact Hrun|]. split; [exact Hstop|].
  split; [exact Hmask | exact Htrace].
Defined.

Lemma vector_resolution_witness :
  controller_vector (uxn (state vector_world)) = 0x04 * 256 + 0x56 ∧
  screen_vector (uxn (state vector_world)) = 0x01 * 256 + 0x23 ∧
  ∃ w', timer_callback idle_uxn_eval vector_world = Some (tt, w') ∧
    eval_calls (trace w') = [0x0123].
Proof.
  destruct (vector_resolution idle_uxn_eval vector_world 0x04 0x56 0x01 0x23)
    as (Hcv & Hsv & _ & w' & Hrun & Hcalls);
    [reflexivity | unfold is_byte; lia .. | reflexivity | reflexivity
     | reflexivity | reflexivity |].
  split; [exact Hcv|]. split; [exact Hsv|].
  exists w'. split; [exact Hrun | exact Hcalls].
Defined.

Lemma unrecognized_key_event_witness :
  button_bit InputKeyMAX = 0 ∧
  ∃ w', input_callback idle_uxn_eval
          (mkInputEvent InputKeyMAX InputTypePress) (mask_world 0x10)
          = Some (tt, w') ∧
    eval_calls (trace w') = [0] ∧ mask w' = 0x10.
Proof.
  destruct (unrecognized_key_event idle_uxn_eval (mask_world 0x10)
              InputKeyMAX InputTypePress)
    as (Hbit & _ & _ & w' & Hrun & _ & Hcalls & Huxn).
  - reflexivity.
  - reflexivity.
  - unfold is_byte. vm_compute. split; [discriminate | reflexivity].
  - intros Hk. apply recognized_cases in Hk. by apply Hk.
  - by left.
  - split; [exact Hbit|]. exists w'. split; [exact Hrun|].
    split; [exact Hcalls|]. unfold mask. rewrite Huxn. reflexivity.
Defined.

Lemma button_mask_press_release_witness :
  ∃ w1 w2,
    input_callback idle_uxn_eval (mkInputEvent InputKeyOk InputTypePress)
      (mask_world 0x10) = Some (tt, w1) ∧
    mask w1 = 0x11 ∧
    input_callback idle_uxn_eval (mkInputEvent InputKeyOk InputTypeRelease)
      w1 = Some (tt, w2) ∧
    mask w2 = 0x10.
Proof.
  destruct (button_mask_press_release idle_uxn_eval
              (λ _ _ _, eq_refl) (λ _ _ _, eq_refl)
              (mask_world 0x10) InputKeyOk)
    as (_ & _ & _ & (w1 & w2 & Hrun1 & Hmask1 & Hrun2 & _ & Hback) & _).
  - reflexivity.
  - reflexivity.
  - unfold is_byte. vm_compute. split; [discriminate | reflexivity].
  - unfold recognized. apply list_elem_of_here.
  - exists w1, w2. split; [exact Hrun1|]. split; [exact Hmask1|].
    split; [exact Hrun2|]. apply Hback. reflexivity.
Defined.

(** C6 as stated fails twice over.  When the key's bit is already set
    before the press, press and release leave it clear; and a routine that
    writes the register (here: 0 to port 0x82) decides what the mask is
    after either event. *)
Lemma press_release_not_restoring :
  (recognized InputKeyOk ∧ mask (mask_world 0x01) = 0x01 ∧
   ∃ w1 w2,
     input_callback idle_uxn_eval (mkInputEvent InputKeyOk InputTypePress)
       (mask_world 0x01) = Some (tt, w1) ∧
     input_callback idle_uxn_eval (mkInputEvent InputKeyOk InputTypeRelease)
       w1 = Some (tt, w2) ∧
     mask w2 = 0x00 ∧ mask w2 ≠ mask (mask_world 0x01)) ∧
  (mask (mask_world 0x10) = 0x10 ∧
   Z.land (mask (mask_world 0x10)) (button_bit InputKeyOk) = 0 ∧
   ∃ w1 w2,
     input_callback poke_mask_eval (mkInputEvent InputKeyOk InputTypePress)
       (mask_world 0x10) = Some (tt, w1) ∧
     input_callback poke_mask_eval (mkInputEvent InputKeyOk InputTypeRelease)
       w1 = Some (tt, w2) ∧
     mask w2 = 0x00 ∧ mask w2 ≠ mask (mask_world 0x10)).
Proof.
  split.
  - split; [apply list_elem_of_here|]. split; [reflexivity|].
    eexists _, _. split; [by apply input_callback_press_run|].
    split; [by apply input_callback_release_run|].
    split; [reflexivity | discriminate].
  - split; [reflexivity|]. split; [reflexivity|].
    eexists _, _. split; [by apply input_callback_press_run|].
    split; [by apply input_callback_release_run|].
    split; [reflexivity | discriminate].
Qed.

Lemma dirty_flag_coalesces_witness :
  ∃ w2 w3,
    run idle_uxn_eval [Tick; Tick; Tick; Pass] fresh_world = Some (tt, w2) ∧
    commits (trace w2) = 1%nat ∧ redraw (state w2) = false ∧
    run idle_uxn_eval [Tick; Tick; Tick; Pass; Pass] fresh_world
      = Some (tt, w3) ∧
    commits (trace w3) = 1%nat.
Proof.
  destruct (dirty_flag_coalesces idle_uxn_eval 3 fresh_world)
    as (_ & w2 & w3 & _ & _ & _ & Hrun2 & _ & Hc2 & Hd2 & Hrun3 & Hc3 & _).
  - lia.
  - reflexivity.
  - reflexivity.
  - exists w2, w3. split; [exact Hrun2|]. split; [exact Hc2|].
    split; [exact Hd2|]. split; [exact Hrun3 | exact Hc3].
Defined.

(** * Further properties *)

(** ** Device dispatch: selectors, frames and composition *)

Lemma selector_screen (addr : Z) :
  0 ≤ addr < 256 → (Z.shiftr addr 4 = 2 ↔ 0x20 ≤ addr < 0x30).
Proof.
  intros Haddr. rewrite Z.shiftr_div_pow2 by lia. change (2 ^ 4) with 16.
  pose proof (Z.div_mod addr 16). pose proof (Z.mod_pos_bound addr 16). lia.
Qed.

Lemma port_screen (addr : Z) :
  0x20 ≤ addr < 0x30 → Z.land addr 0x0f = addr - 0x20.
Proof.
  intros Haddr. change 0x0f with (Z.ones 4). rewrite Z.land_ones by lia.
  change (2 ^ 4) with 16.
  pose proof (Z.div_mod addr 16). pose proof (Z.mod_pos_bound addr 16).
  assert (addr `div` 16 = 2); lia.
Qed.

Section DispatchMore.

Variable screen_dei : Uxn → UxnScreen → Z → Z.
Variable screen_deo : Uxn → UxnScreen → Z → Z → Uxn * UxnScreen.

(** X1.  For an address in 0..255 the screen device is entered exactly for
    the sixteen ports 0x20..0x2f, with the port number [addr - 0x20]; every
    other address is plain register storage, for reads and for writes. *)
Theorem dispatch_by_address_range (u : Uxn) (s : UxnScreen) (addr value : Z) :
  0 ≤ addr < 256 →
  emu_dei screen_dei u s addr =
    (if decide (0x20 ≤ addr < 0x30) then screen_dei u s addr
     else rd (dev u) addr) ∧
  emu_deo screen_deo u s addr value =
    (if decide (0x20 ≤ addr < 0x30)
     then screen_deo (mkUxn (ram u) (wr (dev u) addr value)) s 0x20
                     (addr - 0x20)
     else (mkUxn (ram u) (wr (dev u) addr value), s)) ∧
  (0x20 ≤ addr < 0x30 → 0 ≤ addr - 0x20 < 16).
Proof.
  intros Haddr. pose proof (selector_screen addr Haddr) as Hsel.
  unfold emu_dei, emu_deo.
  destruct (decide (0x20 ≤ addr < 0x30)) as [Hin|Hout].
  - rewrite !decide_True by by apply Hsel.
    rewrite port_screen by done. repeat split; lia.
  - rewrite !decide_False by (intros Heq; by apply Hout, Hsel).
    repeat split; lia.
Qed.

(** X2.  A write outside the screen ports changes one register and nothing
    else: memory, the planes and the number of registers stay, and a read
    of any other plain register returns what it held before. *)
Theorem emu_deo_frame (u : Uxn) (s : UxnScreen) (A B v : Z) :
  0 ≤ A < 256 → 0 ≤ B < 256 → A ≠ B →
  Z.shiftr A 4 ≠ 2 → Z.shiftr B 4 ≠ 2 →
  emu_dei screen_dei (emu_deo screen_deo u s A v).1
                     (emu_deo screen_deo u s A v).2 B
    = emu_dei screen_dei u s B ∧
  ram (emu_deo screen_deo u s A v).1 = ram u ∧
  (emu_deo screen_deo u s A v).2 = s ∧
  length (dev (emu_deo screen_deo u s A v).1) = length (dev u).
Proof.
  intros HA HB Hne HselA HselB. unfold emu_dei, emu_deo.
  rewrite !decide_False by done. simpl.
  rewrite rd_wr_ne, length_wr by lia. done.
Qed.

(** X3.  Writes outside the screen ports compose like assignments: to two
    different addresses they commute, and of two writes to one address the
    second one stands. *)
Theorem emu_deo_compose (u : Uxn) (s : UxnScreen) (A B v v' : Z) :
  0 ≤ A < 256 → 0 ≤ B < 256 →
  Z.shiftr A 4 ≠ 2 → Z.shiftr B 4 ≠ 2 →
  (A ≠ B →
   emu_deo screen_deo (emu_deo screen_deo u s A v).1
                      (emu_deo screen_deo u s A v).2 B v'
   = emu_deo screen_deo (emu_deo screen_deo u s B v').1
                        (emu_deo screen_deo u s B v').2 A v) ∧
  emu_deo screen_deo (emu_deo screen_deo u s A v).1
                     (emu_deo screen_deo u s A v).2 A v'
  = emu_deo screen_deo u s A v'.
Proof.
  intros HA HB HselA HselB. unfold emu_deo.
  rewrite !decide_False by done. simpl. unfold wr. split.
  - intros Hne. rewrite list_insert_insert_ne; [done | lia].
  - by rewrite list_insert_insert_eq.
Qed.

End DispatchMore.

Lemma dispatch_by_address_range_witness :
  emu_dei idle_screen_dei zero_uxn blank_screen 0x2e = 0 ∧
  emu_deo idle_screen_deo zero_uxn blank_screen 0x2e 5 =
    (mkUxn (ram zero_uxn) (wr (dev zero_uxn) 0x2e 5), blank_screen).
Proof.
  destruct (dispatch_by_address_range idle_screen_dei idle_screen_deo
              zero_uxn blank_screen 0x2e 5) as (Hdei & Hdeo & _); [lia|].
  split; [exact Hdei | exact Hdeo].
Defined.

Lemma emu_deo_frame_witness :
  emu_dei idle_screen_dei
    (emu_deo idle_screen_deo zero_uxn blank_screen 0x80 4).1
    (emu_deo idle_screen_deo zero_uxn blank_screen 0x80 4).2 0x81
  = emu_dei idle_screen_dei zero_uxn blank_screen 0x81.
Proof.
  destruct (emu_deo_frame idle_screen_dei idle_screen_deo zero_uxn
              blank_screen 0x80 0x81 4) as (Hread & _);
    [lia | lia | lia | vm_compute; discriminate | vm_compute; discriminate |].
  exact Hread.
Defined.

Lemma emu_deo_compose_witness :
  emu_deo idle_screen_deo
    (emu_deo idle_screen_deo zero_uxn blank_screen 0x80 4).1
    (emu_deo idle_screen_deo zero_uxn blank_screen 0x80 4).2 0x80 9
  = emu_deo idle_screen_deo zero_uxn blank_screen 0x80 9.
Proof.
  destruct (emu_deo_compose idle_screen_deo zero_uxn blank_screen
              0x80 0x81 4 9) as (_ & Hlast);
    [lia | lia | vm_compute; discriminate | vm_compute; discriminate |].
  exact Hlast.
Defined.

(** ** What a key event hands to the interpreter *)

Lemma is_byte_uint8 (z : Z) : is_byte (uint8 z).
Proof. apply Z.mod_pos_bound. lia. Qed.

Lemma land_uint8_byte (x c : Z) :
  is_byte c → Z.land (uint8 x) c = Z.land x c.
Proof.
  intros Hc. rewrite uint8_land_ones, <- Z.land_assoc. f_equal.
  rewrite Z.land_comm, Z.land_ones by lia. apply Z.mod_small, Hc.
Qed.

Lemma lor_absorb (m b : Z) : Z.land (Z.lor m b) b = b.
Proof.
  apply Z.bits_inj'. intros n _. rewrite Z.land_spec, Z.lor_spec.
  by destruct (Z.testbit m n), (Z.testbit b n).
Qed.

Lemma land_lnot_disjoint (b c : Z) :
  Z.land b c = 0 → Z.land (Z.lnot b) c = c.
Proof.
  intros Hbc. rewrite Z.land_comm, <- Z.ldiff_land.
  rewrite <- (Z.lor_ldiff_and c b) at 2.
  by rewrite (Z.land_comm c), Hbc, Z.lor_0_r.
Qed.

Lemma press_bits (m : Z) (K K' : InputKey) :
  Z.land (uint8 (Z.lor m (button_bit K))) (button_bit K') =
    if decide (K' = K) then button_bit K
    else Z.land m (button_bit K').
Proof.
  rewrite land_uint8_byte by apply is_byte_button_bit.
  destruct (decide (K' = K)) as [->|Hne]; [apply lor_absorb|].
  by rewrite Z.land_lor_distr_l, button_bit_disjoint, Z.lor_0_r.
Qed.

Lemma release_bits (m : Z) (K K' : InputKey) :
  Z.land (uint8 (Z.land m (Z.lnot (button_bit K)))) (button_bit K') =
    if decide (K' = K) then 0
    else Z.land m (button_bit K').
Proof.
  rewrite land_uint8_byte by apply is_byte_button_bit.
  rewrite <- Z.land_assoc.
  destruct (decide (K' = K)) as [->|Hne].
  - by rewrite (Z.land_comm (Z.lnot _)), Z.land_lnot_diag, Z.land_0_r.
  - by rewrite land_lnot_disjoint by by apply button_bit_disjoint.
Qed.

Lemma vector_at_wr (d : list Z) (a r v : Z) :
  0 ≤ a → 0 ≤ r → r ≠ a → r ≠ a + 1 →
  vector_at (wr d r v) a = vector_at d a.
Proof.
  intros Ha Hr Hne Hne1. unfold vector_at.
  by rewrite !rd_wr_ne by lia.
Qed.

Section KeyEvents.

Variable uxn_eval : Uxn → UxnScreen → Z → Uxn * UxnScreen.
Variable screen_dei : Uxn → UxnScreen → Z → Z.

(** X4.  On a press the interpreter is called once, on a VM that differs
    from the one before the event in register 0x82 alone: memory, the other
    registers and both vectors are the same.  The register holds a byte in
    which the key's bit is set and every other key's bit is as before, and
    the interpreter reads that byte back through [emu_dei] at port 0x82. *)
Theorem press_seen_by_interpreter (w : World) (K : InputKey) :
  mutex (state w) = false →
  length (dev (uxn (state w))) = 256%nat →
  ∃ w' u1,
    input_callback uxn_eval (mkInputEvent K InputTypePress) w
      = Some (tt, w') ∧
    trace w' = trace w ++ [CallEval u1 (controller_vector (uxn (state w)))] ∧
    ram u1 = ram (uxn (state w)) ∧
    length (dev u1) = 256%nat ∧
    (∀ a, 0 ≤ a → a ≠ 0x82 →
          rd (dev u1) a = rd (dev (uxn (state w))) a) ∧
    controller_vector u1 = controller_vector (uxn (state w)) ∧
    screen_vector u1 = screen_vector (uxn (state w)) ∧
    is_byte (rd (dev u1) 0x82) ∧
    Z.land (rd (dev u1) 0x82) (button_bit K) = button_bit K ∧
    (∀ K', K' ≠ K →
       Z.land (rd (dev u1) 0x82) (button_bit K')
       = Z.land (mask w) (button_bit K')) ∧
    emu_dei screen_dei u1 (uxn_screen w) 0x82 = rd (dev u1) 0x82.
Proof.
  intros Hm Hlen. eexists _, _.
  split; [by apply input_callback_press_run|].
  cbv zeta. cbn [trace]. split; [reflexivity|]. cbn [ram dev].
  split; [reflexivity|].
  split; [by rewrite length_wr|].
  split; [intros a Ha Hne; apply rd_wr_ne; lia|].
  split; [apply vector_at_wr; lia|].
  split; [apply vector_at_wr; lia|].
  rewrite rd_wr_eq by lia.
  split; [apply is_byte_uint8|].
  split; [by rewrite press_bits, decide_True|].
  split; [intros K' HK'; by rewrite press_bits, decide_False|].
  unfold emu_dei. rewrite decide_False by (vm_compute; discriminate).
  cbn [dev]. by rewrite rd_wr_eq by lia.
Qed.

(** X5.  On a release the interpreter is called once, on a VM that differs
    from the one before the event in register 0x82 alone; the register holds
    a byte in which the key's bit is clear and every other key's bit is as
    before. *)
Theorem release_seen_by_interpreter (w : World) (K : InputKey) :
  mutex (state w) = false →
  length (dev (uxn (state w))) = 256%nat →
  ∃ w' u1,
    input_callback uxn_eval (mkInputEvent K InputTypeRelease) w
      = Some (tt, w') ∧
    trace w' = trace w ++ [CallEval u1 (controller_vector (uxn (state w)))] ∧
    ram u1 = ram (uxn (state w)) ∧
    length (dev u1) = 256%nat ∧
    (∀ a, 0 ≤ a → a ≠ 0x82 →
          rd (dev u1) a = rd (dev (uxn (state w))) a) ∧
    controller_vector u1 = controller_vector (uxn (state w)) ∧
    screen_vector u1 = screen_vector (uxn (state w)) ∧
    is_byte (rd (dev u1) 0x82) ∧
    Z.land (rd (dev u1) 0x82) (button_bit K) = 0 ∧
    (∀ K', K' ≠ K →
       Z.land (rd (dev u1) 0x82) (button_bit K')
       = Z.land (mask w) (button_bit K')) ∧
    emu_dei screen_dei u1 (uxn_screen w) 0x82 = rd (dev u1) 0x82.
Proof.
  intros Hm Hlen. eexists _, _.
  split; [by apply input_callback_release_run|].
  cbv zeta. cbn [trace]. split; [reflexivity|]. cbn [ram dev].
  split; [reflexivity|].
  split; [by rewrite length_wr|].
  split; [intros a Ha Hne; apply rd_wr_ne; lia|].
  split; [apply vector_at_wr; lia|].
  split; [apply vector_at_wr; lia|].
  rewrite rd_wr_eq by lia.
  split; [apply is_byte_uint8|].
  split; [by rewrite release_bits, decide_True|].
  split; [intros K' HK'; by rewrite release_bits, decide_False|].
  unfold emu_dei. rewrite decide_False by (vm_compute; discriminate).
  cbn [dev]. by rewrite rd_wr_eq by lia.
Qed.

(** X6.  An event that is neither a press nor a release, and not the long
    press of the back key, changes nothing at all: short and repeat events
    of every key and long presses of the other keys are ignored. *)
Theorem other_events_ignored (w : World) (e : InputEvent) :
  mutex (state w) = false →
  type e ≠ InputTypePress → type e ≠ InputTypeRelease →
  is_stop e = false →
  input_callback uxn_eval e w = Some (tt, w).
Proof.
  intros Hm Hp Hr Hstop.
  rewrite input_callback_other_run by done. simpl.
  unfold is_stop in Hstop. rewrite Hstop.
  destruct w as [[m u r d] s t]. simpl in *. by subst.
Qed.

(** What any key event does, from a free mutex. *)
Lemma input_callback_effect (w : World) (e : InputEvent) :
  mutex (state w) = false →
  ∃ w' added,
    input_callback uxn_eval e w = Some (tt, w') ∧
    mutex (state w') = false ∧
    redraw (state w') = redraw (state w) ∧
    running (state w') = running (state w) && negb (is_stop e) ∧
    trace w' = trace w ++ added ∧
    (added = [] ∨ ∃ u pc, added = [CallEval u pc]) ∧
    commits added = 0%nat.
Proof.
  intros Hm. destruct e as [k ty].
  destruct (decide (ty = InputTypePress)) as [->|Hp];
    [|destruct (decide (ty = InputTypeRelease)) as [->|Hr]].
  - eexists _, [_]. split; [by apply input_callback_press_run|].
    cbn [state mutex redraw running trace].
    unfold is_stop. cbn [type]. rewrite andb_false_r, andb_true_r.
    do 4 (split; [reflexivity|]). split; [right; eauto | reflexivity].
  - eexists _, [_]. split; [by apply input_callback_release_run|].
    cbn [state mutex redraw running trace].
    unfold is_stop. cbn [type]. rewrite andb_false_r, andb_true_r.
    do 4 (split; [reflexivity|]). split; [right; eauto | reflexivity].
  - eexists _, []. split; [by apply input_callback_other_run|].
    cbn [state mutex redraw running trace key type]. unfold is_stop.
    cbn [key type]. rewrite app_nil_r.
    split; [reflexivity|]. split; [reflexivity|].
    split; [by destruct (_ && _), (running (state w))|].
    split; [reflexivity|]. split; [by left | reflexivity].
Qed.

(** X7.  No key event touches the redraw flag or the canvas: what an event
    adds to the trace is nothing or one interpreter call, and [running]
    changes only by the long press of the back key. *)
Theorem input_callback_never_redraws (w : World) (e : InputEvent) :
  mutex (state w) = false →
  ∃ w' added,
    input_callback uxn_eval e w = Some (tt, w') ∧
    mutex (state w') = false ∧
    redraw (state w') = redraw (state w) ∧
    running (state w') = running (state w) && negb (is_stop e) ∧
    trace w' = trace w ++ added ∧
    (added = [] ∨ ∃ u pc, added = [CallEval u pc]) ∧
    commits added = 0%nat.
Proof. apply input_callback_effect. Qed.

End KeyEvents.

(** ** Whole schedules *)

Lemma render_loop_pass_stopped (w : World) :
  running (state w) = false → render_loop_pass w = Some (tt, w).
Proof. intros Hr. unfold render_loop_pass, bind, gets. by rewrite Hr. Qed.

Lemma eval_calls_app (t1 t2 : list Call) :
  eval_calls (t1 ++ t2) = eval_calls t1 ++ eval_calls t2.
Proof. apply omap_app. Qed.

Lemma eval_calls_draw_frame (s : UxnScreen) : eval_calls (draw_frame s) = [].
Proof.
  assert (Hdots : Forall (λ c, ∃ x y, c = CanvasDrawDot x y) (draw_frame s)).
  { apply Forall_forall. intros c Hc. by apply (draw_frame_dots s). }
  induction Hdots as [|c t (x & y & ->) _ IH]; [done|]. exact IH.
Qed.

Lemma count_actors_cons (p : Actor → bool) (a : Actor) (sched : list Actor) :
  count_actors p (a :: sched) =
    ((if p a then 1 else 0) + count_actors p sched)%nat.
Proof.
  unfold count_actors. destruct (p a) eqn:Hp.
  - by rewrite filter_cons_True.
  - rewrite filter_cons_False; [done | by rewrite Hp].
Qed.

Section Schedules.

Variable uxn_eval : Uxn → UxnScreen → Z → Uxn * UxnScreen.

(** What one actor does, from a free mutex. *)
Lemma step_summary (a : Actor) (w : World) :
  mutex (state w) = false →
  ∃ w' added,
    step uxn_eval a w = Some (tt, w') ∧
    mutex (state w') = false ∧
    trace w' = trace w ++ added ∧
    running (state w') = running (state w) && negb (stops a) ∧
    length (eval_calls added) = (if resumes a then 1 else 0)%nat ∧
    (commits added + (if redraw (state w') then 1 else 0)
     ≤ (if redraw (state w) then 1 else 0)
       + (if is_tick a then 1 else 0))%nat.
Proof.
  intros Hm. destruct a as [|e|].
  - eexists _, [_]. split; [by apply timer_callback_run|].
    cbv zeta. cbn [state mutex trace running redraw stops resumes is_tick].
    rewrite andb_true_r. do 4 (split; [reflexivity|]).
    change (commits [_]) with 0%nat. destruct (redraw (state w)); lia.
  - destruct (input_callback_effect uxn_eval w e Hm)
      as (w' & added & Hrun & Hm' & Hd & Hr & Ht & Hadded & Hc).
    exists w', added. cbn [step stops resumes is_tick].
    do 4 (split; [done|]). rewrite Hc, Hd. split; [|lia].
    destruct e as [k ty].
    destruct (decide (ty = InputTypePress)) as [->|Hp];
      [|destruct (decide (ty = InputTypeRelease)) as [->|Hrel]].
    + rewrite input_callback_press_run in Hrun by done.
      injection Hrun as <-. cbn [trace] in Ht.
      apply (inj (app _)) in Ht as <-. reflexivity.
    + rewrite input_callback_release_run in Hrun by done.
      injection Hrun as <-. cbn [trace] in Ht.
      apply (inj (app _)) in Ht as <-. reflexivity.
    + rewrite input_callback_other_run in Hrun by done.
      injection Hrun as <-. cbn [trace] in Ht.
      rewrite <- (app_nil_r (trace w)) in Ht at 1.
      apply (inj (app _)) in Ht as <-. cbn [type].
      by rewrite !bool_decide_eq_false_2.
  - cbn [step stops resumes is_tick]. rewrite andb_true_r.
    destruct (running (state w)) eqn:Hr.
    + rewrite render_loop_pass_run by done.
      destruct (redraw (state w)) eqn:Hd.
      * eexists _, _. split; [reflexivity|].
        cbn [state mutex trace running redraw].
        do 3 (split; [reflexivity|]).
        rewrite !eval_calls_app, eval_calls_draw_frame.
        split; [reflexivity|].
        rewrite !commits_app, commits_draw_frame.
        change (commits [CanvasClear]) with 0%nat.
        change (commits [CanvasCommit; DelayTick 2]) with 1%nat. lia.
      * eexists _, _. split; [reflexivity|].
        cbn [state mutex trace running redraw].
        do 4 (split; [reflexivity|]).
        change (commits [DelayTick 2]) with 0%nat. lia.
    + rewrite render_loop_pass_stopped by done.
      exists w, []. rewrite app_nil_r, Hr.
      do 5 (split; [done|]). change (commits []) with 0%nat. lia.
Qed.

(** What a schedule does, from a free mutex. *)
Lemma run_summary (sched : list Actor) :
  ∀ w, mutex (state w) = false →
    ∃ w' added,
      run uxn_eval sched w = Some (tt, w') ∧
      mutex (state w') = false ∧
      trace w' = trace w ++ added ∧
      running (state w') =
        running (state w) && forallb (λ a, negb (stops a)) sched ∧
      length (eval_calls added) = count_actors resumes sched ∧
      (commits added + (if redraw (state w') then 1 else 0)
       ≤ (if redraw (state w) then 1 else 0)
         + count_actors is_tick sched)%nat.
Proof.
  induction sched as [|a sched IH]; intros w Hm.
  - exists w, []. rewrite app_nil_r, andb_true_r.
    do 5 (split; [done|]). change (commits []) with 0%nat.
    change (count_actors is_tick []) with 0%nat. lia.
  - destruct (step_summary a w Hm)
      as (w1 & add1 & Hrun1 & Hm1 & Ht1 & Hr1 & He1 & Hc1).
    destruct (IH w1 Hm1) as (w' & add2 & Hrun2 & Hm2 & Ht2 & Hr2 & He2 & Hc2).
    exists w', (add1 ++ add2).
    split; [simpl; unfold bind; by rewrite Hrun1|].
    split; [done|].
    split; [by rewrite Ht2, Ht1, app_assoc|].
    split; [by rewrite Hr2, Hr1; cbn [forallb]; rewrite andb_assoc|].
    rewrite eval_calls_app, length_app, commits_app, !count_actors_cons.
    split; [by rewrite He1, He2|].
    destruct (is_tick a); lia.
Qed.

(** X8.  From a free mutex every schedule of ticks, key events and render
    passes runs to its end, no actor is left blocked, the mutex is free
    again afterwards, and the trace has only grown. *)
Theorem schedule_releases_mutex (sched : list Actor) (w : World) :
  mutex (state w) = false →
  ∃ w' added,
    run uxn_eval sched w = Some (tt, w') ∧
    mutex (state w') = false ∧
    trace w' = trace w ++ added.
Proof.
  intros Hm.
  destruct (run_summary sched w Hm) as (w' & added & Hrun & Hm' & Ht & _).
  by exists w', added.
Qed.

(** X9.  After a schedule the session is running exactly if it was before
    and the schedule holds no long press of the back key: nothing else
    stops a session, and nothing starts a stopped one again. *)
Theorem running_until_long_back (sched : list Actor) (w : World) :
  mutex (state w) = false →
  ∃ w',
    run uxn_eval sched w = Some (tt, w') ∧
    running (state w') =
      running (state w) && forallb (λ a, negb (stops a)) sched.
Proof.
  intros Hm.
  destruct (run_summary sched w Hm) as (w' & added & Hrun & _ & _ & Hr & _).
  by exists w'.
Qed.

(** X10.  The interpreter is resumed once for every tick, press and release
    of a schedule, and never otherwise. *)
Theorem resumptions_counted (sched : list Actor) (w : World) :
  mutex (state w) = false →
  ∃ w',
    run uxn_eval sched w = Some (tt, w') ∧
    length (eval_calls (trace w')) =
      (length (eval_calls (trace w)) + count_actors resumes sched)%nat.
Proof.
  intros Hm.
  destruct (run_summary sched w Hm)
    as (w' & added & Hrun & _ & Ht & _ & He & _).
  exists w'. split; [done|].
  by rewrite Ht, eval_calls_app, length_app, He.
Qed.

(** X11.  Over any schedule the frames committed, plus one if a redraw is
    still pending at the end, number at most the ticks, plus one if a
    redraw was pending at the start: key events never cause a frame, and a
    tick causes at most one. *)
Theorem commits_bounded_by_ticks (sched : list Actor) (w : World) :
  mutex (state w) = false →
  ∃ w',
    run uxn_eval sched w = Some (tt, w') ∧
    (commits (trace w') + (if redraw (state w') then 1 else 0)
     ≤ commits (trace w) + (if redraw (state w) then 1 else 0)
       + count_actors is_tick sched)%nat.
Proof.
  intros Hm.
  destruct (run_summary sched w Hm)
    as (w' & added & Hrun & _ & Ht & _ & _ & Hc).
  exists w'. split; [done|]. rewrite Ht, commits_app. lia.
Qed.

End Schedules.

(** ** The Button Mask over a list of events *)

Lemma land_single_bit (m n : Z) :
  0 ≤ n → Z.land m (2 ^ n) = if Z.testbit m n then 2 ^ n else 0.
Proof.
  intros Hn. apply Z.bits_inj'. intros k Hk. rewrite Z.land_spec.
  destruct (Z.testbit m n) eqn:Hb.
  - rewrite Z.pow2_bits_eqb by lia.
    destruct (Z.eqb_spec n k) as [<-|];
      [by rewrite Hb | by rewrite andb_false_r].
  - rewrite Z.bits_0, Z.pow2_bits_eqb by lia.
    destruct (Z.eqb_spec n k) as [<-|];
      [by rewrite Hb | by rewrite andb_false_r].
Qed.

Lemma button_bit_land_cases (m : Z) (K : InputKey) :
  recognized K →
  Z.land m (button_bit K) =
    if bool_decide (Z.land m (button_bit K) ≠ 0) then button_bit K else 0.
Proof.
  intros HK. destruct (button_bit_single K HK) as (n & Hn & ->).
  rewrite land_single_bit by lia. destruct (Z.testbit m n).
  - rewrite bool_decide_eq_true_2; [done | lia].
  - by rewrite bool_decide_eq_false_2 by (intros H; by apply H).
Qed.

Lemma button_bit_nonzero (K : InputKey) : recognized K → button_bit K ≠ 0.
Proof. intros HK. destruct (button_bit_single K HK) as (n & Hn & ->). lia. Qed.

Section MaskHistory.

Variable uxn_eval : Uxn → UxnScreen → Z → Uxn * UxnScreen.

Hypothesis uxn_eval_dev_length : ∀ u s pc,
  length (dev (uxn_eval u s pc).1) = length (dev u).
Hypothesis uxn_eval_keeps_mask : ∀ u s pc,
  rd (dev (uxn_eval u s pc).1) 0x82 = rd (dev u) 0x82.

(** X12.  When the interpreter leaves register 0x82 alone, the bit of a key
    after any list of events is decided by the key's last press or release
    in the list: set after a press, clear after a release, and as it was
    when the list holds neither.  Doubled presses, releases without a press
    and events of other keys make no difference. *)
Theorem mask_follows_last_event (K : InputKey) (events : list InputEvent)
    (w : World) :
  mutex (state w) = false →
  length (dev (uxn (state w))) = 256%nat →
  recognized K →
  ∃ w', run uxn_eval (Input <$> events) w = Some (tt, w') ∧
    Z.land (mask w') (button_bit K) =
      if key_down K events (bool_decide (Z.land (mask w) (button_bit K) ≠ 0))
      then button_bit K else 0.
Proof.
  intros Hm Hlen HK. revert w Hm Hlen.
  induction events as [|e events IH]; intros w Hm Hlen.
  - exists w. split; [done|]. by apply button_bit_land_cases.
  - assert (∃ w1, input_callback uxn_eval e w = Some (tt, w1) ∧
              mutex (state w1) = false ∧
              length (dev (uxn (state w1))) = 256%nat ∧
              key_down K (e :: events)
                (bool_decide (Z.land (mask w) (button_bit K) ≠ 0))
              = key_down K events
                  (bool_decide (Z.land (mask w1) (button_bit K) ≠ 0)))
      as (w1 & Hrun & Hm1 & Hlen1 & Hdown).
    { destruct e as [k ty]. unfold key_down. cbn [foldl key type].
      destruct (decide (ty = InputTypePress)) as [->|Hp];
        [|destruct (decide (ty = InputTypeRelease)) as [->|Hr]].
      - destruct (press_mask uxn_eval uxn_eval_dev_length
                    uxn_eval_keeps_mask w k Hm Hlen)
          as (w1 & Hrun & Hmask & Hm1 & Hlen1).
        exists w1. do 3 (split; [done|]). rewrite Hmask, press_bits.
        f_equal. destruct (decide (k = K)) as [->|Hk].
        + rewrite decide_True by done.
          by rewrite bool_decide_eq_true_2 by by apply button_bit_nonzero.
        + rewrite decide_False by done. done.
      - destruct (release_mask uxn_eval uxn_eval_dev_length
                    uxn_eval_keeps_mask w k Hm Hlen)
          as (w1 & Hrun & Hmask & Hm1 & Hlen1).
        exists w1. do 3 (split; [done|]). rewrite Hmask, release_bits.
        f_equal. destruct (decide (k = K)) as [->|Hk].
        + rewrite decide_True by done.
          by rewrite bool_decide_eq_false_2 by (intros H; by apply H).
        + rewrite decide_False by done. done.
      - destruct (other_mask uxn_eval w (mkInputEvent k ty) Hm Hp Hr)
          as (w1 & Hrun & Hmask & Hm1 & Hdev).
        exists w1. rewrite Hmask, Hdev. do 3 (split; [done|]).
        f_equal. by destruct (decide (k = K)). }
    destruct (IH w1 Hm1 Hlen1) as (w' & Hrun' & Hbit).
    exists w'. split.
    + simpl. unfold bind. by rewrite Hrun.
    + by rewrite Hdown.
Qed.

End MaskHistory.

(** ** The frame and the render pass *)

Lemma length_bind_le {A B} (f : A → list B) (l : list A) (n : nat) :
  (∀ x, length (f x) ≤ n)%nat → (length (l ≫= f) ≤ length l * n)%nat.
Proof.
  intros Hf. induction l as [|x l IH]; csimpl; [lia|].
  rewrite length_app. specialize (Hf x). lia.
Qed.

Lemma NoDup_draw_row (s : UxnScreen) (y : Z) : NoDup (draw_row s y).
Proof.
  unfold draw_row. apply NoDup_bind; [| |apply NoDup_seqZ].
  - intros x1 x2 c _ _ H1 H2.
    destruct (pixel_on _ _); [|by apply elem_of_nil in H1].
    destruct (pixel_on _ _); [|by apply elem_of_nil in H2].
    apply list_elem_of_singleton in H1, H2. congruence.
  - intros x _. destruct (pixel_on _ _); [apply NoDup_singleton | constructor].
Qed.

(** X13.  One frame draws nothing but dots, each inside the 128x64 canvas,
    no dot twice, and so at most 8192 of them. *)
Theorem frame_draws_each_pixel_once (s : UxnScreen) :
  NoDup (draw_frame s) ∧
  Z.of_nat (length (draw_frame s)) ≤ 128 * 64 ∧
  ∀ c, c ∈ draw_frame s →
    ∃ x y, c = CanvasDrawDot x y ∧ 0 ≤ x < 128 ∧ 0 ≤ y < 64.
Proof.
  split; [|split].
  - unfold draw_frame. apply NoDup_bind; [| |apply NoDup_seqZ].
    + intros y1 y2 c _ _ H1 H2.
      destruct (draw_row_dots s y1 c H1) as [x1 ->].
      by apply elem_of_draw_row in H2 as (Heq & _).
    + intros y _. apply NoDup_draw_row.
  - assert (Hrow : ∀ y, (length (draw_row s y) ≤ 128)%nat).
    { intros y. unfold draw_row.
      etrans; [apply (length_bind_le _ _ 1)|].
      - intros x. destruct (pixel_on _ _); simpl; lia.
      - rewrite length_seqZ. lia. }
    pose proof (length_bind_le (λ y, draw_row s y) (seqZ 0 64) 128 Hrow)
      as Hall.
    rewrite length_seqZ in Hall. fold (draw_frame s) in Hall. lia.
  - intros c Hc. unfold draw_frame in Hc.
    apply list_elem_of_bind in Hc as (y & Hc & Hy).
    apply elem_of_seqZ in Hy.
    destruct (draw_row_dots s y c Hc) as [x ->].
    apply elem_of_draw_row in Hc as (_ & Hx & _).
    exists x, y. split; [done|]. split; lia.
Qed.

(** X14.  A pass of the render loop only reads: the VM, the planes and
    [running] are as before, the interpreter is not called and the mutex is
    free again.  With the redraw flag clear it commits nothing, and once
    the session has stopped it does nothing at all. *)
Theorem render_pass_only_reads (w : World) :
  mutex (state w) = false →
  ∃ w', render_loop_pass w = Some (tt, w') ∧
    uxn (state w') = uxn (state w) ∧
    uxn_screen w' = uxn_screen w ∧
    running (state w') = running (state w) ∧
    mutex (state w') = false ∧
    eval_calls (trace w') = eval_calls (trace w) ∧
    (redraw (state w) = false →
     commits (trace w') = commits (trace w) ∧ redraw (state w') = false) ∧
    (running (state w) = false → w' = w).
Proof.
  intros Hm. destruct (running (state w)) eqn:Hr.
  - eexists. split; [by apply render_loop_pass_run|].
    cbn [state uxn uxn_screen running mutex trace redraw].
    do 4 (split; [reflexivity|]). split; [|split; [|done]].
    + destruct (redraw (state w)).
      * rewrite !eval_calls_app, eval_calls_draw_frame.
        apply app_nil_r.
      * rewrite eval_calls_app. apply app_nil_r.
    + intros ->. split; [|done]. rewrite commits_app. apply Nat.add_0_r.
  - exists w. split; [by apply render_loop_pass_stopped|].
    rewrite Hr. by repeat split.
Qed.

Lemma render_pass_only_reads_witness :
  ∃ w', render_loop_pass fresh_world = Some (tt, w') ∧
    uxn (state w') = zero_uxn ∧ uxn_screen w' = blank_screen ∧
    commits (trace w') = 0%nat.
Proof.
  destruct (render_pass_only_reads fresh_world)
    as (w' & Hrun & Huxn & Hscreen & _ & _ & _ & Hclear & _); [reflexivity|].
  exists w'. split; [exact Hrun|]. split; [exact Huxn|].
  split; [exact Hscreen|]. apply Hclear. reflexivity.
Defined.

(** ** Starting a session *)

Lemma rd_zero_registers (a : Z) : rd (replicate 0x100%nat 0) a = 0.
Proof.
  unfold rd. destruct (_ !! _) as [b|] eqn:Hb; [|done].
  by apply lookup_replicate in Hb as [-> _].
Qed.

Section Start.

Variable uxn_eval : Uxn → UxnScreen → Z → Uxn * UxnScreen.
Variable screen_resize : Z → Z → UxnScreen.

(** X15.  Without a selected file [uxn_app] starts nothing: the state stays
    as initialised, the interpreter is never called, and the render loop,
    however often its condition is tested, draws nothing. *)
Theorem no_selection_no_session (heap : list Z) (n : nat) :
  uxn_app_start uxn_eval screen_resize heap None initial_world
    = Some (tt, initial_world) ∧
  run uxn_eval (replicate n Pass) initial_world = Some (tt, initial_world) ∧
  running (state initial_world) = false ∧
  trace initial_world = [].
Proof.
  split; [reflexivity|]. split; [|done].
  induction n as [|n IH]; [done|].
  simpl. unfold bind. by rewrite render_loop_pass_stopped.
Qed.

(** X16.  Whatever the file holds, the session starts with one interpreter
    call, at 0x100, on a VM whose 256 registers are all zero: no vector is
    installed and no button is down until the program says so.  Afterwards
    the session is running with the mutex free and no redraw pending.  A
    file without bytes leaves the whole memory as the allocator returned
    it. *)
Theorem session_starts_clean (heap file : list Z) :
  ∃ w' u0,
    uxn_app_start uxn_eval screen_resize heap (Some file) initial_world
      = Some (tt, w') ∧
    trace w' = [CallEval u0 0x100] ∧
    (∀ a, rd (dev u0) a = 0) ∧
    length (dev u0) = 256%nat ∧
    controller_vector u0 = 0 ∧ screen_vector u0 = 0 ∧
    uxn (state w') = (uxn_eval u0 (screen_resize 128 64) 0x100).1 ∧
    uxn_screen w' = (uxn_eval u0 (screen_resize 128 64) 0x100).2 ∧
    running (state w') = true ∧ redraw (state w') = false ∧
    mutex (state w') = false ∧
    (file = [] → ram u0 = heap).
Proof.
  eexists _, _. split; [apply uxn_app_start_run|].
  cbv zeta. cbn [trace]. split; [reflexivity|].
  cbn [dev ram state uxn uxn_screen running redraw mutex].
  split; [apply rd_zero_registers|].
  split; [apply length_replicate|].
  split; [apply vector_at_zero; apply rd_zero_registers|].
  split; [apply vector_at_zero; apply rd_zero_registers|].
  do 5 (split; [reflexivity|]).
  by intros ->.
Qed.

End Start.

(** ** Installing the controller vector *)

Section Install.

Variable uxn_eval : Uxn → UxnScreen → Z → Uxn * UxnScreen.
Variable screen_deo : Uxn → UxnScreen → Z → Z → Uxn * UxnScreen.

(** X17.  Two device writes, of a byte [hi] to port 0x80 and a byte [lo]
    to port 0x81, install the controller vector: the next press or release
    resumes the interpreter at [hi * 256 + lo]. *)
Theorem controller_vector_installed (w : World) (hi lo : Z)
    (k : InputKey) (ty : InputType) :
  mutex (state w) = false →
  length (dev (uxn (state w))) = 256%nat →
  is_byte hi → is_byte lo →
  ty = InputTypePress ∨ ty = InputTypeRelease →
  ∃ u2 s2 w',
    emu_deo screen_deo
      (emu_deo screen_deo (uxn (state w)) (uxn_screen w) 0x80 hi).1
      (emu_deo screen_deo (uxn (state w)) (uxn_screen w) 0x80 hi).2
      0x81 lo = (u2, s2) ∧
    controller_vector u2 = hi * 256 + lo ∧
    input_callback uxn_eval (mkInputEvent k ty) (set_screen s2 (set_uxn u2 w))
      = Some (tt, w') ∧
    eval_calls (trace w') = eval_calls (trace w) ++ [hi * 256 + lo].
Proof.
  intros Hm Hlen Hhi Hlo Hty. unfold emu_deo.
  rewrite !decide_False by (vm_compute; discriminate). cbn [fst snd ram dev].
  assert (Hv : controller_vector
                 (mkUxn (ram (uxn (state w)))
                        (wr (wr (dev (uxn (state w))) 0x80 hi) 0x81 lo))
               = hi * 256 + lo).
  { apply (vector_at_bytes _ 0x80 hi lo Hhi Hlo); cbn [dev]; unfold wr.
    - rewrite list_lookup_insert_ne by lia.
      apply list_lookup_insert_eq. lia.
    - apply list_lookup_insert_eq. rewrite length_insert. lia. }
  destruct Hty as [->| ->]; eexists _, _; eexists;
    (split; [reflexivity|]); (split; [exact Hv|]); rewrite <- Hv.
  - split; [by apply input_callback_press_run|].
    cbv zeta. cbn [trace set_screen set_uxn state uxn].
    apply eval_calls_snoc.
  - split; [by apply input_callback_release_run|].
    cbv zeta. cbn [trace set_screen set_uxn state uxn].
    apply eval_calls_snoc.
Qed.

End Install.

(** ** Further runs on the sample states *)

Lemma press_seen_by_interpreter_witness :
  ∃ w' u1,
    input_callback idle_uxn_eval (mkInputEvent InputKeyOk InputTypePress)
      (mask_world 0x10) = Some (tt, w') ∧
    trace w' = [CallEval u1 0] ∧
    Z.land (rd (dev u1) 0x82) (button_bit InputKeyOk) = 0x01 ∧
    Z.land (rd (dev u1) 0x82) (button_bit InputKeyUp) = 0x10.
Proof.
  destruct (press_seen_by_interpreter idle_uxn_eval idle_screen_dei
              (mask_world 0x10) InputKeyOk)
    as (w' & u1 & Hrun & Htrace & _ & _ & _ & _ & _ & _ & Hbit & Hrest & _);
    [reflexivity | reflexivity |].
  exists w', u1. split; [exact Hrun|]. split; [exact Htrace|].
  split; [exact Hbit|]. apply (Hrest InputKeyUp). discriminate.
Defined.

Lemma release_seen_by_interpreter_witness :
  ∃ w' u1,
    input_callback idle_uxn_eval (mkInputEvent InputKeyOk InputTypeRelease)
      (mask_world 0x11) = Some (tt, w') ∧
    trace w' = [CallEval u1 0] ∧
    Z.land (rd (dev u1) 0x82) (button_bit InputKeyOk) = 0 ∧
    Z.land (rd (dev u1) 0x82) (button_bit InputKeyUp) = 0x10.
Proof.
  destruct (release_seen_by_interpreter idle_uxn_eval idle_screen_dei
              (mask_world 0x11) InputKeyOk)
    as (w' & u1 & Hrun & Htrace & _ & _ & _ & _ & _ & _ & Hbit & Hrest & _);
    [reflexivity | reflexivity |].
  exists w', u1. split; [exact Hrun|]. split; [exact Htrace|].
  split; [exact Hbit|]. apply (Hrest InputKeyUp). discriminate.
Defined.

Lemma other_events_ignored_witness :
  input_callback idle_uxn_eval (mkInputEvent InputKeyUp InputTypeShort)
    (mask_world 0x10) = Some (tt, mask_world 0x10).
Proof.
  apply (other_events_ignored idle_uxn_eval (mask_world 0x10)
           (mkInputEvent InputKeyUp InputTypeShort));
    [reflexivity | discriminate | discriminate | reflexivity].
Defined.

Lemma input_callback_never_redraws_witness :
  ∃ w',
    input_callback idle_uxn_eval (mkInputEvent InputKeyBack InputTypeLong)
      fresh_world = Some (tt, w') ∧
    redraw (state w') = false ∧ running (state w') = false.
Proof.
  destruct (input_callback_never_redraws idle_uxn_eval fresh_world
              (mkInputEvent InputKeyBack InputTypeLong))
    as (w' & added & Hrun & _ & Hredraw & Hrunning & _); [reflexivity|].
  exists w'. split; [exact Hrun|]. split; [exact Hredraw | exact Hrunning].
Defined.

Lemma schedule_releases_mutex_witness :
  ∃ w',
    run idle_uxn_eval
      [Tick; Input (mkInputEvent InputKeyUp InputTypePress); Pass;
       Input (mkInputEvent InputKeyUp InputTypeRelease)] fresh_world
      = Some (tt, w') ∧
    mutex (state w') = false.
Proof.
  destruct (schedule_releases_mutex idle_uxn_eval
              [Tick; Input (mkInputEvent InputKeyUp InputTypePress); Pass;
               Input (mkInputEvent InputKeyUp InputTypeRelease)] fresh_world)
    as (w' & added & Hrun & Hfree & _); [reflexivity|].
  exists w'. split; [exact Hrun | exact Hfree].
Defined.

Lemma running_until_long_back_witness :
  ∃ w',
    run idle_uxn_eval
      [Tick; Input (mkInputEvent InputKeyBack InputTypeLong); Pass; Tick]
      fresh_world = Some (tt, w') ∧
    running (state w') = false.
Proof.
  destruct (running_until_long_back idle_uxn_eval
              [Tick; Input (mkInputEvent InputKeyBack InputTypeLong); Pass;
               Tick] fresh_world)
    as (w' & Hrun & Hrunning); [reflexivity|].
  exists w'. split; [exact Hrun | exact Hrunning].
Defined.

Lemma resumptions_counted_witness :
  ∃ w',
    run idle_uxn_eval
      [Tick; Input (mkInputEvent InputKeyUp InputTypePress);
       Input (mkInputEvent InputKeyUp InputTypeShort); Pass;
       Input (mkInputEvent InputKeyUp InputTypeRelease)] fresh_world
      = Some (tt, w') ∧
    length (eval_calls (trace w')) = 3%nat.
Proof.
  destruct (resumptions_counted idle_uxn_eval
              [Tick; Input (mkInputEvent InputKeyUp InputTypePress);
               Input (mkInputEvent InputKeyUp InputTypeShort); Pass;
               Input (mkInputEvent InputKeyUp InputTypeRelease)] fresh_world)
    as (w' & Hrun & Hcount); [reflexivity|].
  exists w'. split; [exact Hrun | exact Hcount].
Defined.

Lemma commits_bounded_by_ticks_witness :
  ∃ w',
    run idle_uxn_eval
      [Tick; Tick; Pass; Input (mkInputEvent InputKeyUp InputTypePress);
       Pass] fresh_world = Some (tt, w') ∧
    (commits (trace w') + (if redraw (state w') then 1 else 0) ≤ 2)%nat.
Proof.
  destruct (commits_bounded_by_ticks idle_uxn_eval
              [Tick; Tick; Pass;
               Input (mkInputEvent InputKeyUp InputTypePress); Pass]
              fresh_world)
    as (w' & Hrun & Hbound); [reflexivity|].
  exists w'. split; [exact Hrun | exact Hbound].
Defined.

Lemma mask_follows_last_event_witness :
  ∃ w',
    run idle_uxn_eval
      (Input <$> [mkInputEvent InputKeyUp InputTypePress;
                  mkInputEvent InputKeyDown InputTypePress;
                  mkInputEvent InputKeyUp InputTypePress;
                  mkInputEvent InputKeyDown InputTypeRelease])
      fresh_world = Some (tt, w') ∧
    Z.land (mask w') (button_bit InputKeyUp) = 0x10.
Proof.
  destruct (mask_follows_last_event idle_uxn_eval
              (λ _ _ _, eq_refl) (λ _ _ _, eq_refl) InputKeyUp
              [mkInputEvent InputKeyUp InputTypePress;
               mkInputEvent InputKeyDown InputTypePress;
               mkInputEvent InputKeyUp InputTypePress;
               mkInputEvent InputKeyDown InputTypeRelease] fresh_world)
    as (w' & Hrun & Hbit).
  - reflexivity.
  - reflexivity.
  - unfold recognized. apply list_elem_of_further, list_elem_of_further,
      list_elem_of_here.
  - exists w'. split; [exact Hrun | exact Hbit].
Defined.

Lemma controller_vector_installed_witness :
  ∃ u2 s2 w',
    emu_deo idle_screen_deo
      (emu_deo idle_screen_deo zero_uxn blank_screen 0x80 0x04).1
      (emu_deo idle_screen_deo zero_uxn blank_screen 0x80 0x04).2
      0x81 0x56 = (u2, s2) ∧
    controller_vector u2 = 0x0456 ∧
    input_callback idle_uxn_eval (mkInputEvent InputKeyOk InputTypePress)
      (set_screen s2 (set_uxn u2 fresh_world)) = Some (tt, w') ∧
    eval_calls (trace w') = [0x0456].
Proof.
  destruct (controller_vector_installed idle_uxn_eval idle_screen_deo
              fresh_world 0x04 0x56 InputKeyOk InputTypePress)
    as (u2 & s2 & w' & Hdeo & Hvector & Hrun & Hcalls).
  - reflexivity.
  - reflexivity.
  - unfold is_byte. lia.
  - unfold is_byte. lia.
  - by left.
  - exists u2, s2, w'. split; [exact Hdeo|]. split; [exact Hvector|].
    split; [exact Hrun | exact Hcalls].
Defined.

(** ** The timer period and the frame after a tick *)

(** X18.  The period is the tick frequency divided by 60, rounded down: 60
    periods never take longer than a second, they fall short of it by less
    than 60 ticks, and below 60 ticks per second the period is 0. *)
Theorem timer_period_rounds_down (f : Z) :
  0 ≤ f < 2 ^ 32 →
  0 ≤ timer_period f ∧
  60 * timer_period f ≤ f < 60 * timer_period f + 60 ∧
  (timer_period f = 0 ↔ f < 60).
Proof.
  intros Hf. unfold timer_period.
  pose proof (Z.div_mod f 60). pose proof (Z.mod_pos_bound f 60). lia.
Qed.

Lemma timer_period_rounds_down_witness :
  60 * timer_period 1000 ≤ 1000 < 60 * timer_period 1000 + 60.
Proof.
  destruct (timer_period_rounds_down 1000) as (_ & Hbounds & _); [lia|].
  exact Hbounds.
Defined.

Section TickThenPass.

Variable uxn_eval : Uxn → UxnScreen → Z → Uxn * UxnScreen.

(** X19.  A tick followed by a pass of the render loop resumes the
    interpreter at the screen vector and then shows the planes as that
    resumption left them: the canvas is cleared, the dots of exactly those
    planes are drawn, and the frame is committed, in this order. *)
Theorem tick_then_pass_draws_planes (w : World) :
  mutex (state w) = false → running (state w) = true →
  ∃ w',
    run uxn_eval [Tick; Pass] w = Some (tt, w') ∧
    trace w' =
      trace w
      ++ [CallEval (uxn (state w)) (screen_vector (uxn (state w)));
          CanvasClear]
      ++ draw_frame (uxn_eval (uxn (state w)) (uxn_screen w)
                              (screen_vector (uxn (state w)))).2
      ++ [CanvasCommit; DelayTick 2] ∧
    uxn_screen w' =
      (uxn_eval (uxn (state w)) (uxn_screen w)
                (screen_vector (uxn (state w)))).2 ∧
    redraw (state w') = false ∧
    mutex (state w') = false.
Proof.
  intros Hm Hr. eexists. split.
  - cbn [run step]. unfold bind at 1. rewrite timer_callback_run by done.
    cbv zeta. unfold bind at 1. rewrite render_loop_pass_run by done.
    reflexivity.
  - cbn [trace state redraw uxn_screen mutex].
    split; [by rewrite <- app_assoc|]. done.
Qed.

End TickThenPass.

Lemma tick_then_pass_draws_planes_witness :
  ∃ w',
    run idle_uxn_eval [Tick; Pass] fresh_world = Some (tt, w') ∧
    redraw (state w') = false ∧ uxn_screen w' = blank_screen.
Proof.
  destruct (tick_then_pass_draws_planes idle_uxn_eval fresh_world)
    as (w' & Hrun & _ & Hscreen & Hredraw & _); [reflexivity | reflexivity |].
  exists w'. split; [exact Hrun|]. split; [exact Hredraw | exact Hscreen].
Defined.
